(** * Shadow Defective: the image-preparation and request pipeline

    A shallow embedding of [shadow_defective.py]: the Python built-ins the
    program relies on ([str.replace], [str.strip], [in], [round], [str] of a
    float), Pillow's [Image.thumbnail], the worker thread ([APIWorker]) and
    the window ([ShadowDetectiveApp]), followed by the properties of the
    specification.

    Conventions.
    - A Python [str] is a [string]; a character is a code point below 256.
    - A Python [float] is an exact rational, a negative zero or a NaN
      ([pyfloat]): rounding error, overflow and infinities are left out.
    - A raised exception is a value ([Raise e]); only subclasses of
      [Exception] are modelled. *)

From Stdlib Require Import String Ascii List ZArith QArith Qround Qabs Bool Lia.
From Stdlib Require Import DecimalString Lqa.
Import ListNotations.

Set Implicit Arguments.

(* ================================================================== *)
(** * Part I: definitions *)
(* ================================================================== *)

(** ** Exceptions and fallible results *)

Record Exception := mkExc { exc_class : string; exc_msg : string }.

Inductive result (A : Type) : Type :=
| Ok (a : A)
| Raise (e : Exception).
Arguments Ok {A} a.
Arguments Raise {A} e.

Definition rbind {A B} (r : result A) (k : A -> result B) : result B :=
  match r with
  | Ok a => k a
  | Raise e => Raise e
  end.

Declare Scope py_scope.
Delimit Scope py_scope with py.
Notation "x <- r ;; k" := (rbind r (fun x => k))
  (at level 61, r at next level, right associativity) : py_scope.
Notation "' pat <- r ;; k" := (rbind r (fun x => match x with pat => k end))
  (at level 61, pat pattern, r at next level, right associativity) : py_scope.

(** A computation over a mutable object of type [S]: the state survives
    an exception, as the attributes of a Python object do. *)
Definition Py (S A : Type) : Type := S -> S * result A.

Definition ret {S A} (a : A) : Py S A := fun s => (s, Ok a).

Definition bind {S A B} (m : Py S A) (k : A -> Py S B) : Py S B :=
  fun s => match m s with
           | (s', Ok a) => k a s'
           | (s', Raise e) => (s', Raise e)
           end.

Definition lift {S A} (r : result A) : Py S A := fun s => (s, r).

Definition modify {S} (f : S -> S) : Py S unit := fun s => (f s, Ok tt).

(** [try: body  except Exception: handler] *)
Definition try_except {S A} (body : Py S A) (handler : Exception -> Py S A)
  : Py S A :=
  fun s => match body s with
           | (s', Ok a) => (s', Ok a)
           | (s', Raise e) => handler e s'
           end.

(** ** Python strings *)

Open Scope string_scope.

(** [sub in s] *)
Fixpoint str_contains (sub s : string) : bool :=
  prefix sub s ||
  match s with
  | EmptyString => false
  | String _ s' => str_contains sub s'
  end.

(** The scan of [s.replace(old, new)] for a non-empty [old]: left to right,
    an occurrence found at the current position is replaced and its
    remaining [skip] characters are passed over. *)
Fixpoint replace_scan (old new s : string) (skip : nat) : string :=
  match s with
  | EmptyString => EmptyString
  | String c s' =>
      match skip with
      | S k => replace_scan old new s' k
      | O =>
          if prefix old s
          then new ++ replace_scan old new s' (String.length old - 1)
          else String c (replace_scan old new s' 0)
      end
  end.

(** With an empty [old], Python puts [new] before every character and at
    the end. *)
Fixpoint replace_empty (new s : string) : string :=
  match s with
  | EmptyString => new
  | String c s' => new ++ String c (replace_empty new s')
  end.

(** [s.replace(old, new)] *)
Definition str_replace (s old new : string) : string :=
  match old with
  | EmptyString => replace_empty new s
  | String _ _ => replace_scan old new s 0
  end.

(** [c.isspace()] for a code point below 256. *)
Definition isspace (c : ascii) : bool :=
  let n := nat_of_ascii c in
  ((9 <=? n) && (n <=? 13) || (28 <=? n) && (n <=? 32)
   || (n =? 133) || (n =? 160))%nat.

Fixpoint lstrip (s : string) : string :=
  match s with
  | EmptyString => EmptyString
  | String c s' => if isspace c then lstrip s' else s
  end.

Fixpoint rstrip (s : string) : string :=
  match s with
  | EmptyString => EmptyString
  | String c s' =>
      match rstrip s' with
      | EmptyString => if isspace c then EmptyString else String c EmptyString
      | r => String c r
      end
  end.

(** [s.strip()] *)
Definition str_strip (s : string) : string := rstrip (lstrip s).

(** [c.lower()] for a code point below 256: A-Z and the Latin-1 capitals. *)
Definition char_lower (c : ascii) : ascii :=
  let n := nat_of_ascii c in
  if ((65 <=? n) && (n <=? 90)
      || (192 <=? n) && (n <=? 222) && negb (n =? 215))%nat
  then ascii_of_nat (n + 32) else c.

(** [s.lower()] *)
Fixpoint str_lower (s : string) : string :=
  match s with
  | EmptyString => EmptyString
  | String c s' => String (char_lower c) (str_lower s')
  end.

(** Some character of [s] is not whitespace: [s] is neither empty nor
    whitespace-only. *)
Fixpoint has_nonspace (s : string) : bool :=
  match s with
  | EmptyString => false
  | String c s' => negb (isspace c) || has_nonspace s'
  end.

(** Truth value of a string: [not s] is [str_empty s]. *)
Definition str_empty (s : string) : bool :=
  match s with
  | EmptyString => true
  | String _ _ => false
  end.

(** ** Python floats *)

(** A float is an exact rational, the negative zero, or a NaN.  [Fin 0] is
    the positive zero. *)
Inductive pyfloat : Type :=
| Fin (q : Q)
| NegZero
| NaN.

(** [x + y] *)
Definition fadd (x y : pyfloat) : pyfloat :=
  match x, y with
  | NaN, _ | _, NaN => NaN
  | NegZero, NegZero => NegZero
  | NegZero, Fin b => Fin b
  | Fin a, NegZero => Fin a
  | Fin a, Fin b => Fin (a + b)%Q
  end.

(** [x / c] for a positive constant [c] *)
Definition fdiv (x : pyfloat) (c : Q) : pyfloat :=
  match x with
  | Fin a => Fin (a / c)%Q
  | NegZero => NegZero
  | NaN => NaN
  end.

(** [-x] *)
Definition fneg (x : pyfloat) : pyfloat :=
  match x with
  | Fin a => if Qeq_bool a 0 then NegZero else Fin (- a)%Q
  | NegZero => Fin 0
  | NaN => NaN
  end.

(** Nearest integer, ties to the even one. *)
Definition round_half_even (q : Q) : Z :=
  let f := Qfloor q in
  match (q - inject_Z f ?= 1 # 2)%Q with
  | Lt => f
  | Gt => (f + 1)%Z
  | Eq => if Z.even f then f else (f + 1)%Z
  end.

(** [round(x, 6)]: a NaN rounds to itself, a negative value that rounds to
    zero gives the negative zero. *)
Definition round6 (x : pyfloat) : pyfloat :=
  match x with
  | Fin q =>
      let k := round_half_even (q * 1000000)%Q in
      if (k =? 0)%Z
      then (if Qlt_le_dec q 0 then NegZero else Fin 0)
      else Fin (k # 1000000)
  | NegZero => NegZero
  | NaN => NaN
  end.




(** Decimal digits of a non-negative integer. *)
Definition digits (n : Z) : string :=
  DecimalString.NilZero.string_of_uint (N.to_uint (Z.to_N n)).

Fixpoint rstrip_zeros (s : string) : string :=
  match s with
  | EmptyString => EmptyString
  | String c s' =>
      match rstrip_zeros s' with
      | EmptyString => if Ascii.eqb c "0" then EmptyString else String c EmptyString
      | r => String c r
      end
  end.

Fixpoint zeros (n : nat) : string :=
  match n with
  | O => EmptyString
  | S n' => String "0" (zeros n')
  end.

(** The repr of a positive float whose value is [k] millionths: the
    shortest digit string, in exponent notation below 1e-4 and from 1e16
    on, as CPython's [repr] chooses. *)
Definition repr_millionths (k : Z) : string :=
  let all := digits k in
  let d := rstrip_zeros all in
  let nd := String.length d in
  let decpt := (Z.of_nat (String.length all) - 6)%Z in
  if ((decpt <=? -4) || (16 <? decpt))%Z then
    let e := (decpt - 1)%Z in
    let mant := match d with
                | String c EmptyString => d
                | String c rest => String c ("." ++ rest)
                | EmptyString => d
                end in
    let ed := digits (Z.abs e) in
    mant ++ "e" ++ (if (e <? 0)%Z then "-" else "+")
         ++ (if (String.length ed <? 2)%nat then "0" ++ ed else ed)
  else if (decpt <=? 0)%Z then
    "0." ++ zeros (Z.to_nat (- decpt)) ++ d
  else if (Z.of_nat nd <=? decpt)%Z then
    d ++ zeros (Z.to_nat decpt - nd) ++ ".0"
  else
    substring 0 (Z.to_nat decpt) d ++ "."
      ++ substring (Z.to_nat decpt) (nd - Z.to_nat decpt) d.

(** [str(x)] for a float [x] that [round6] returned. *)
Definition float_str (x : pyfloat) : string :=
  match x with
  | NaN => "nan"
  | NegZero => "-0.0"
  | Fin q =>
      let k := Qfloor (Qabs q * 1000000)%Q in
      if (k =? 0)%Z then "0.0"
      else (if Qlt_le_dec q 0 then "-" else "") ++ repr_millionths k
  end.

(** ** EXIF values, as Pillow decodes them *)

(** A numeric entry: an [int], a [float] or an [IFDRational]; a rational
    with a zero denominator converts to a NaN. *)
Inductive number : Type :=
| Num (q : Q)
| NumNaN.

Unset Elimination Schemes.

(** The value of a tag: text (ASCII), raw bytes (UNDEFINED), one number,
    a tuple of numbers, or a nested directory keyed by tag ids. *)
Inductive exif_value : Type :=
| VText (s : string)
| VBytes (b : list Z)
| VNum (n : number)
| VTuple (l : list number)
| VIfd (d : list (Z * exif_value)).

Set Elimination Schemes.

(** What iterating a value yields: characters of a text, or numbers. *)
Inductive item : Type :=
| IChar (c : ascii)
| INum (n : number).

(** Keys of [gps_info]: [GPSTAGS.get(gps_tag_id, gps_tag_id)] is the tag's
    name, or the id itself when the table has none. *)
Inductive gps_key : Type :=
| GName (name : string)
| GId (id : Z).

Definition gps_key_eqb (a b : gps_key) : bool :=
  match a, b with
  | GName x, GName y => String.eqb x y
  | GId x, GId y => (x =? y)%Z
  | _, _ => false
  end.

(** [PIL.ExifTags.GPSTAGS] *)
Definition GPSTAGS : list (Z * string) :=
  [ (0, "GPSVersionID"); (1, "GPSLatitudeRef"); (2, "GPSLatitude");
    (3, "GPSLongitudeRef"); (4, "GPSLongitude"); (5, "GPSAltitudeRef");
    (6, "GPSAltitude"); (7, "GPSTimeStamp"); (8, "GPSSatellites");
    (9, "GPSStatus"); (10, "GPSMeasureMode"); (11, "GPSDOP");
    (12, "GPSSpeedRef"); (13, "GPSSpeed"); (14, "GPSTrackRef");
    (15, "GPSTrack"); (16, "GPSImgDirectionRef"); (17, "GPSImgDirection");
    (18, "GPSMapDatum"); (19, "GPSDestLatitudeRef"); (20, "GPSDestLatitude");
    (21, "GPSDestLongitudeRef"); (22, "GPSDestLongitude");
    (23, "GPSDestBearingRef"); (24, "GPSDestBearing");
    (25, "GPSDestDistanceRef"); (26, "GPSDestDistance");
    (27, "GPSProcessingMethod"); (28, "GPSAreaInformation");
    (29, "GPSDateStamp"); (30, "GPSDifferential");
    (31, "GPSHPositioningError") ]%Z.

Fixpoint table_get (t : list (Z * string)) (id : Z) : option string :=
  match t with
  | [] => None
  | (k, name) :: t' => if (k =? id)%Z then Some name else table_get t' id
  end.

Definition GPSTAGS_get (gps_tag_id : Z) : gps_key :=
  match table_get GPSTAGS gps_tag_id with
  | Some name => GName name
  | None => GId gps_tag_id
  end.

(** The id of the one tag that [PIL.ExifTags.TAGS] names "GPSInfo"
    (0x8825); [TAGS.get(tag_id, tag_id) == "GPSInfo"] holds for it alone. *)
Definition GPSInfo_tag : Z := 34853.

(** A Python [dict] as an association list: [d[k] = v] overwrites the
    entry of [k] in place or appends a new one. *)
Fixpoint dict_set {V} (d : list (gps_key * V)) (k : gps_key) (v : V)
  : list (gps_key * V) :=
  match d with
  | [] => [(k, v)]
  | (k', v') :: d' =>
      if gps_key_eqb k' k then (k', v) :: d' else (k', v') :: dict_set d' k v
  end.

Fixpoint dict_get {V} (d : list (gps_key * V)) (k : gps_key) : option V :=
  match d with
  | [] => None
  | (k', v') :: d' => if gps_key_eqb k' k then Some v' else dict_get d' k
  end.

(** ** Pillow images *)

Record Image := mkImage {
  width : Z;
  height : Z;
  mode : string;
  format : option string;
  (** [img._getexif()]: raises where the format's plugin has no such
      method, else [None] or the merged tag dictionary. *)
  _getexif : result (option (list (Z * exif_value)))
}.

(** [round_aspect] of [Image.thumbnail]: of the floor and the ceiling of
    [number], the one with the smaller [key] (the floor on a tie), and at
    least 1. *)
Definition round_aspect (number : Q) (key : Z -> Q) : Z :=
  let lo := Qfloor number in
  let hi := Qceiling number in
  Z.max (if Qle_bool (key lo) (key hi) then lo else hi) 1.

(** [preserve_aspect_ratio] of [Image.thumbnail]: [None] when the image
    already fits in [size], else the size to resize to.  Pillow divides
    in floating point; the quotients here are exact. *)
Definition preserve_aspect_ratio (size : Z * Z) (img : Image)
  : result (option (Z * Z)) :=
  let (x, y) := size in
  if ((x >=? width img) && (y >=? height img))%Z then Ok None
  else if (height img =? 0)%Z
  then Raise (mkExc "ZeroDivisionError" "division by zero")
  else
    let aspect := (inject_Z (width img) / inject_Z (height img))%Q in
    if Qle_bool aspect (inject_Z x / inject_Z y)%Q then
      Ok (Some (round_aspect (inject_Z y * aspect)%Q
                  (fun n => Qabs (aspect - inject_Z n / inject_Z y)%Q), y))
    else
      Ok (Some (x, round_aspect (inject_Z x / aspect)%Q
                  (fun n => if (n =? 0)%Z then 0%Q
                            else Qabs (aspect - inject_Z x / inject_Z n)%Q))).

(** [img.thumbnail(size)]: resizes in place; mode and format stay. *)
Definition thumbnail (img : Image) (size : Z * Z) : result Image :=
  match preserve_aspect_ratio size img with
  | Raise e => Raise e
  | Ok None => Ok img
  | Ok (Some (x, y)) =>
      Ok (mkImage x y (mode img) (format img) (_getexif img))
  end.

(** [img.convert(mode)]: a new image of the same size, with no format. *)
Definition convert (img : Image) (new_mode : string) : Image :=
  mkImage (width img) (height img) new_mode None (_getexif img).

(** The modes Pillow's JPEG writer accepts (the keys of its [RAWMODE]);
    [img.save] raises [OSError] on any other. *)
Definition jpeg_writable (m : string) : bool :=
  existsb (String.eqb m) ["1"; "L"; "RGB"; "RGBX"; "CMYK"; "YCbCr"].

(** ** The world outside the program *)

Record ChatRequest := mkRequest {
  req_model : string;
  req_text : string;
  req_image_url : string;
  req_max_tokens : Z
}.

Record World := mkWorld {
  (** [Image.open(path)] *)
  Image_open : string -> result Image;
  (** [mimetypes.guess_type(path)[0]] *)
  guess_type : string -> option string;
  (** the bytes [img.save(buffer, format=fmt)] writes *)
  Image_save : Image -> string -> result string;
  (** [base64.b64encode(data).decode("utf-8")] *)
  b64encode : string -> string;
  (** [OpenAI(api_key).chat.completions.create(...)] down to
      [response.choices[0].message.content] *)
  chat_completions_create : string -> ChatRequest -> result string
}.

(** ** Module constants *)

Definition DEFAULT_PROMPT : string :=
  "Based on the length and direction of the shadows, "
  ++ "the architectural landmarks, and the known latitude/longitude "
  ++ "({lat}, {lon}), calculate the approximate solar angle "
  ++ "and time of day. Walk me through your reasoning.".

Definition MAX_IMAGE_DIMENSION : Z := 1920.

Definition newline : string := String (ascii_of_nat 10) EmptyString.

(** ** class APIWorker *)

Inductive signal : Type :=
| finished (result_text : string)
| error (error_msg : string).

Module APIWorker.

(** The attributes [__init__] sets, and whether the Qt object behind the
    Python one has been deleted ([deleteLater]); deleting it leaves the
    Python attributes in place. *)
Record t := mk {
  api_key : string;
  image_path : string;
  lat : string;
  lon : string;
  prompt_template : string;
  qt_deleted : bool
}.

Definition __init__ (api_key image_path lat lon prompt_template : string) : t :=
  mk api_key image_path lat lon prompt_template false.

Definition deleteLater (self : t) : t :=
  mk (api_key self) (image_path self) (lat self) (lon self)
     (prompt_template self) true.

(** Open, resize if necessary, and base64-encode the image. *)
Definition encode_image (w : World) (image_path : string)
  : result (string * string) :=
  (img <- Image_open w image_path ;;
   img <- thumbnail img (MAX_IMAGE_DIMENSION, MAX_IMAGE_DIMENSION) ;;
   let fmt := match format img with
              | Some f => if str_empty f then "JPEG" else f
              | None => "JPEG"
              end in
   let '(mime_type, fmt) :=
     match guess_type w image_path with
     | Some m => if str_empty m then ("image/jpeg", "JPEG") else (m, fmt)
     | None => ("image/jpeg", "JPEG")
     end in
   let img :=
     if String.eqb mime_type "image/jpeg"
        && existsb (String.eqb (mode img)) ["RGBA"; "P"]
     then convert img "RGB" else img in
   data <- Image_save w img fmt ;;
   Ok (b64encode w data, mime_type))%py.

(** [prompt_template.replace("{lat}", lat).replace("{lon}", lon)] *)
Definition prompt_text (prompt_template lat lon : string) : string :=
  str_replace (str_replace prompt_template "{lat}" lat) "{lon}" lon.

(** The thread's body: the signal it emits, and the calls it made to the
    provider, each with the key the client was built with. *)
Definition run (w : World) (self : t)
  : signal * list (string * ChatRequest) :=
  let api_key := api_key self in
  match encode_image w (image_path self) with
  | Raise e => (error (exc_msg e), [])
  | Ok (base64_image, mime_type) =>
      let prompt_text := prompt_text (prompt_template self) (lat self) (lon self) in
      let request :=
        mkRequest "gpt-4o" prompt_text
          ("data:" ++ mime_type ++ ";base64," ++ base64_image) 1000 in
      match chat_completions_create w api_key request with
      | Ok result_text => (finished result_text, [(api_key, request)])
      | Raise e => (error (exc_msg e), [(api_key, request)])
      end
  end.

End APIWorker.

(** ** class ShadowDetectiveApp *)

(** What a method shows or starts: a modal message box, or the worker
    thread. *)
Inductive action : Type :=
| Warning (title text : string)
| Critical (title text : string)
| Start (worker : APIWorker.t).

(** [degrees, minutes, seconds = dms] *)
Definition unpack3 (dms : exif_value) : result (item * item * item) :=
  let items :=
    match dms with
    | VText s => Ok (map IChar (list_ascii_of_string s))
    | VBytes b => Ok (map (fun n => INum (Num (inject_Z n))) b)
    | VTuple l => Ok (map INum l)
    | VIfd d => Ok (map (fun kv => INum (Num (inject_Z (fst kv)))) d)
    | VNum _ => Raise (mkExc "TypeError" "cannot unpack non-iterable object")
    end in
  (items <- items ;;
   match items with
   | [a; b; c] => Ok (a, b, c)
   | _ => Raise (mkExc "ValueError" "wrong number of values to unpack")
   end)%py.

(** [float(x)] for an item: a one-character text converts when it is a
    decimal digit. *)
Definition float_of (x : item) : result pyfloat :=
  match x with
  | INum (Num q) => Ok (Fin q)
  | INum NumNaN => Ok NaN
  | IChar c =>
      let n := nat_of_ascii c in
      if ((48 <=? n) && (n <=? 57))%nat
      then Ok (Fin (inject_Z (Z.of_nat (n - 48))))
      else Raise (mkExc "ValueError" "could not convert string to float")
  end.

(** [ref in ("S", "W")] *)
Definition ref_in_SW (ref : exif_value) : bool :=
  match ref with
  | VText s => String.eqb s "S" || String.eqb s "W"
  | _ => false
  end.

(** The local function [dms_to_dd] of [_try_populate_gps]. *)
Definition dms_to_dd (dms ref : exif_value) : result pyfloat :=
  ('(degrees, minutes, seconds) <- unpack3 dms ;;
   d <- float_of degrees ;;
   m <- float_of minutes ;;
   s <- float_of seconds ;;
   let dd := fadd (fadd d (fdiv m 60)) (fdiv s 3600) in
   let dd := if ref_in_SW ref then fneg dd else dd in
   Ok (round6 dd))%py.

(** The loop over [exif_data.items()] that fills [gps_info]. *)
Fixpoint fill_gps (ifd : list (Z * exif_value))
    (gps_info : list (gps_key * exif_value)) : list (gps_key * exif_value) :=
  match ifd with
  | [] => gps_info
  | (gps_tag_id, gps_val) :: rest =>
      fill_gps rest (dict_set gps_info (GPSTAGS_get gps_tag_id) gps_val)
  end.

Fixpoint collect_gps (exif_data : list (Z * exif_value))
    (gps_info : list (gps_key * exif_value))
  : result (list (gps_key * exif_value)) :=
  match exif_data with
  | [] => Ok gps_info
  | (tag_id, value) :: rest =>
      if (tag_id =? GPSInfo_tag)%Z then
        match value with
        | VIfd ifd => collect_gps rest (fill_gps ifd gps_info)
        | _ => Raise (mkExc "AttributeError" "object has no attribute 'items'")
        end
      else collect_gps rest gps_info
  end.

(** [gps_info[key]] and [gps_info.get(key, default)] *)
Definition getitem (gps_info : list (gps_key * exif_value)) (key : string)
  : result exif_value :=
  match dict_get gps_info (GName key) with
  | Some v => Ok v
  | None => Raise (mkExc "KeyError" ("'" ++ key ++ "'"))
  end.

Definition get_default (gps_info : list (gps_key * exif_value))
    (key : string) (default : exif_value) : exif_value :=
  match dict_get gps_info (GName key) with
  | Some v => v
  | None => default
  end.

Module ShadowDetectiveApp.

(** The attributes of the window and the state of the widgets the
    modelled methods read or write (the button captions are left out). *)
Record t := mk {
  image_path : option string;
  worker : option APIWorker.t;
  api_input : string;
  lat_input : string;
  lon_input : string;
  prompt_edit : string;
  btn_analyze_enabled : bool;
  progress_bar_visible : bool;
  btn_save_report_enabled : bool;
  result_box : string
}.

Definition __init__ : t :=
  mk None None "" "" "" DEFAULT_PROMPT true false false "".

Definition set_image_path (p : string) (self : t) : t :=
  mk (Some p) (worker self) (api_input self) (lat_input self)
     (lon_input self) (prompt_edit self) (btn_analyze_enabled self)
     (progress_bar_visible self) (btn_save_report_enabled self)
     (result_box self).

Definition set_lat_input (s : string) (self : t) : t :=
  mk (image_path self) (worker self) (api_input self) s
     (lon_input self) (prompt_edit self) (btn_analyze_enabled self)
     (progress_bar_visible self) (btn_save_report_enabled self)
     (result_box self).

Definition set_lon_input (s : string) (self : t) : t :=
  mk (image_path self) (worker self) (api_input self) (lat_input self)
     s (prompt_edit self) (btn_analyze_enabled self)
     (progress_bar_visible self) (btn_save_report_enabled self)
     (result_box self).

(** The part of [_try_populate_gps] inside [try]. *)
Definition populate_gps (w : World) (image_path : string) : Py t unit :=
  bind (lift (Image_open w image_path)) (fun img =>
  bind (lift (_getexif img)) (fun exif_data =>
  match exif_data with
  | None | Some [] => ret tt
  | Some exif_data =>
      bind (lift (collect_gps exif_data [])) (fun gps_info =>
      match gps_info with
      | [] => ret tt
      | _ =>
          bind (lift (dms <- getitem gps_info "GPSLatitude" ;;
                      dms_to_dd dms
                        (get_default gps_info "GPSLatitudeRef" (VText "N")))%py)
            (fun lat =>
          bind (lift (dms <- getitem gps_info "GPSLongitude" ;;
                      dms_to_dd dms
                        (get_default gps_info "GPSLongitudeRef" (VText "E")))%py)
            (fun lon =>
          bind (modify (set_lat_input (float_str lat))) (fun _ =>
          modify (set_lon_input (float_str lon)))))
      end)
  end)).

(** Auto-populate lat/lon from image EXIF if available. *)
Definition _try_populate_gps (w : World) (image_path : string) : Py t unit :=
  try_except (populate_gps w image_path) (fun _ => ret tt).

(** [select_image], given the name the file dialog returned; the preview
    it refreshes is not part of the state. *)
Definition select_image (w : World) (file_name : string) : Py t unit :=
  if str_empty file_name then ret tt
  else bind (modify (set_image_path file_name)) (fun _ =>
       _try_populate_gps w file_name).

(** [run_analysis]: the message box it shows and returns after, or the
    worker it stores in [self.worker] and starts. *)
Definition run_analysis (self : t) : t * list action :=
  let api_key := str_strip (api_input self) in
  let lat := str_strip (lat_input self) in
  let lon := str_strip (lon_input self) in
  let prompt := str_strip (prompt_edit self) in
  if str_empty api_key then
    (self, [Warning "Error" "Please enter your OpenAI API key."])
  else
    match image_path self with
    | None => (self, [Warning "Error" "Please select an image first."])
    | Some path =>
        if str_empty path then
          (self, [Warning "Error" "Please select an image first."])
        else if str_empty lat || str_empty lon then
          (self, [Warning "Error"
                    "Please provide both latitude and longitude."])
        else if str_empty prompt then
          (self, [Warning "Error" "Prompt cannot be empty."])
        else
          let worker := APIWorker.__init__ api_key path lat lon prompt in
          (mk (image_path self) (Some worker) (api_input self)
              (lat_input self) (lon_input self) (prompt_edit self)
              false true false "",
           [Start worker])
    end.

Definition _reset_button (self : t) : t :=
  mk (image_path self) (worker self) (api_input self) (lat_input self)
     (lon_input self) (prompt_edit self) true false
     (btn_save_report_enabled self) (result_box self).

Definition on_analysis_complete (result : string) (self : t)
  : t * list action :=
  (_reset_button
     (mk (image_path self) (worker self) (api_input self) (lat_input self)
         (lon_input self) (prompt_edit self) (btn_analyze_enabled self)
         (progress_bar_visible self) true result),
   []).

(** The local [user_msg] of [on_analysis_error]. *)
Definition user_msg (error_msg : string) : string :=
  if str_contains "401" error_msg
     || str_contains "Incorrect API key" error_msg
     || str_contains "invalid_api_key" error_msg
  then "Authentication failed. Please check your OpenAI API key."
  else if str_contains "429" error_msg
          || str_contains "Rate limit" error_msg
  then "Rate limit or quota exceeded. Wait a moment or check your OpenAI billing."
  else if str_contains "Connection" error_msg
          || str_contains "Network" error_msg
          || str_contains "timeout" (str_lower error_msg)
  then "Network error. Check your internet connection and try again."
  else error_msg.

Definition on_analysis_error (error_msg : string) (self : t)
  : t * list action :=
  (_reset_button self,
   [Critical "API Error"
      ("An error occurred:" ++ newline ++ user_msg error_msg)]).

(** The slot [self.worker.deleteLater], connected to both signals. *)
Definition worker_deleteLater (self : t) : t :=
  mk (image_path self) (option_map APIWorker.deleteLater (worker self))
     (api_input self) (lat_input self) (lon_input self) (prompt_edit self)
     (btn_analyze_enabled self) (progress_bar_visible self)
     (btn_save_report_enabled self) (result_box self).

(** Delivery of the worker's signal to the slots [run_analysis]
    connected, in the order of connection. *)
Definition deliver (s : signal) (self : t) : t * list action :=
  match s with
  | finished result =>
      let (self, acts) := on_analysis_complete result self in
      (worker_deleteLater self, acts)
  | error error_msg =>
      let (self, acts) := on_analysis_error error_msg self in
      (worker_deleteLater self, acts)
  end.

Fixpoint started (acts : list action) : option APIWorker.t :=
  match acts with
  | [] => None
  | Start worker :: _ => Some worker
  | _ :: rest => started rest
  end.

(** One click on the analysis button followed to the end of the run it
    starts: the window afterwards, what was shown or started, and the
    calls made to the provider. *)
Definition submission (w : World) (self : t)
  : t * list action * list (string * ChatRequest) :=
  let (self1, acts) := run_analysis self in
  match started acts with
  | None => (self1, acts, [])
  | Some worker =>
      let (s, calls) := APIWorker.run w worker in
      let (self2, acts2) := deliver s self1 in
      (self2, (acts ++ acts2)%list, calls)
  end.

End ShadowDetectiveApp.

(** The image behind [image_path] carries usable coordinates [lat] and
    [lon]: it opens, its metadata holds a GPS directory with a
    GPSLatitude and a GPSLongitude entry, and both convert.  A hemisphere
    reference that is absent is read as "N", respectively "E". *)
Definition gps_readable (w : World) (image_path : string)
    (lat lon : pyfloat) : Prop :=
  exists img exif_data gps_info dlat dlon,
    Image_open w image_path = Ok img
    /\ _getexif img = Ok (Some exif_data)
    /\ collect_gps exif_data [] = Ok gps_info
    /\ getitem gps_info "GPSLatitude" = Ok dlat
    /\ getitem gps_info "GPSLongitude" = Ok dlon
    /\ dms_to_dd dlat (get_default gps_info "GPSLatitudeRef" (VText "N"))
       = Ok lat
    /\ dms_to_dd dlon (get_default gps_info "GPSLongitudeRef" (VText "E"))
       = Ok lon.

(** ** Stub worlds and sample inputs *)

(** A serializer that refuses what Pillow's JPEG writer refuses and
    otherwise writes a tag naming the format and the mode. *)
Definition pillow_save (img : Image) (fmt : string) : result string :=
  if String.eqb fmt "JPEG" && negb (jpeg_writable (mode img))
  then Raise (mkExc "OSError" ("cannot write mode " ++ mode img ++ " as JPEG"))
  else Ok ("<" ++ fmt ++ ":" ++ mode img ++ ">").

(** A world with one image behind every path, a fixed extension lookup
    and a provider that always gives the same outcome; base64 is left as
    the identity. *)
Definition stub_world (img : result Image) (guess : option string)
    (answer : result string) : World :=
  mkWorld (fun _ => img) (fun _ => guess) pillow_save (fun data => data)
          (fun _ _ => answer).

(** A GPS directory with both coordinates and no hemisphere reference. *)
Definition gps_without_refs : list (Z * exif_value) :=
  [ (2, VTuple [Num (48 # 1); Num (51 # 1); Num (30 # 1)]);
    (4, VTuple [Num (2 # 1); Num (17 # 1); Num (40 # 1)]) ]%Z.

Definition photo : Image :=
  mkImage 4000 3000 "RGB" (Some "JPEG")
    (Ok (Some [(271%Z, VText "Canon"); (GPSInfo_tag, VIfd gps_without_refs)])).

(** A grayscale image with an alpha channel, as a PNG file can hold. *)
Definition gray_alpha : Image :=
  mkImage 640 480 "LA" (Some "PNG") (Ok None).

Definition northeast : string :=
  "Shadow points northeast, consistent with 9:00 AM local time.".

(** A window with every field filled in. *)
Definition filled_app (prompt : string) : ShadowDetectiveApp.t :=
  ShadowDetectiveApp.mk (Some "photo.jpg") None " sk-test " "48.8584"
    "2.2945" prompt true false false "".

(** ** Report export *)

(** What [save_report] reaches outside the window. *)
Record Desktop := mkDesktop {
  (** [datetime.datetime.now().strftime(fmt)] *)
  now_strftime : string -> string;
  (** the name [QFileDialog.getSaveFileName] returns for a proposed
      default name, empty when the dialog is cancelled *)
  getSaveFileName : string -> string;
  (** [Path(file_name).write_text(report, encoding="utf-8")] *)
  write_text : string -> string -> result unit
}.

(** What [save_report] does, in order: a message box, the file dialog,
    a write. *)
Inductive save_action : Type :=
| Shown (a : action)
| Information (title text : string)
| AskFileName (default_name : string)
| WriteText (file_name report : string).

(** [c * n] for a one-character string *)
Fixpoint repeat_char (c : ascii) (n : nat) : string :=
  match n with
  | O => EmptyString
  | S n' => String c (repeat_char c n')
  end.

(** The f-string [report] of [save_report]. *)
Definition report_text (self : ShadowDetectiveApp.t)
    (timestamp result_text : string) : string :=
  "Shadow Defective OSINT Report" ++ newline
  ++ repeat_char "=" 40 ++ newline
  ++ "Timestamp  : " ++ timestamp ++ newline
  ++ "Image      : "
  ++ match ShadowDetectiveApp.image_path self with
     | Some path => if str_empty path then "N/A" else path
     | None => "N/A"
     end ++ newline
  ++ "Latitude   : " ++ str_strip (ShadowDetectiveApp.lat_input self) ++ newline
  ++ "Longitude  : " ++ str_strip (ShadowDetectiveApp.lon_input self) ++ newline
  ++ repeat_char "=" 40 ++ newline ++ newline
  ++ "PROMPT" ++ newline
  ++ repeat_char "-" 40 ++ newline
  ++ str_strip (ShadowDetectiveApp.prompt_edit self) ++ newline ++ newline
  ++ "ANALYSIS" ++ newline
  ++ repeat_char "-" 40 ++ newline
  ++ result_text ++ newline.

(** [save_report]: the window itself is not changed. *)
Definition save_report (d : Desktop) (self : ShadowDetectiveApp.t)
  : list save_action :=
  let result_text := str_strip (ShadowDetectiveApp.result_box self) in
  if str_empty result_text then
    [Shown (Warning "Nothing to Save" "Run an analysis first.")]
  else
    let default_name :=
      "shadow_report_" ++ now_strftime d "%Y%m%d_%H%M%S" ++ ".txt" in
    let file_name := getSaveFileName d default_name in
    if str_empty file_name then [AskFileName default_name]
    else
      let timestamp := now_strftime d "%Y-%m-%d %H:%M:%S" in
      let report := report_text self timestamp result_text in
      match write_text d file_name report with
      | Ok _ =>
          [AskFileName default_name; WriteText file_name report;
           Information "Saved" ("Report saved to:" ++ newline ++ file_name)]
      | Raise e =>
          [AskFileName default_name; WriteText file_name report;
           Shown (Critical "Save Error"
                    ("Could not save report:" ++ newline ++ exc_msg e))]
      end.

(** The files written by a list of actions. *)
Fixpoint written (acts : list save_action) : list (string * string) :=
  match acts with
  | [] => []
  | WriteText file_name report :: rest => (file_name, report) :: written rest
  | _ :: rest => written rest
  end.

(** ** Characters of a text *)

(** [c in s] for a character *)
Fixpoint char_in (c : ascii) (s : string) : bool :=
  match s with
  | EmptyString => false
  | String d s' => Ascii.eqb c d || char_in c s'
  end.

(** No character of [s] occurs in [q]. *)
Fixpoint no_char_of (q s : string) : bool :=
  match s with
  | EmptyString => true
  | String c s' => negb (char_in c q) && no_char_of q s'
  end.

(** A coordinate text that is not empty and uses none of the characters
    of the placeholders, as every number does. *)
Definition plain_coordinate (s : string) : bool :=
  negb (str_empty s) && no_char_of "{lat}{lon}" s.

(** ** Values and windows the properties speak of *)

(** The number a float stands for; a NaN stands for none. *)
Definition float_value (x : pyfloat) : option Q :=
  match x with
  | Fin q => Some q
  | NegZero => Some 0%Q
  | NaN => None
  end.

(** The name [save_report] proposes in the file dialog. *)
Definition default_name (d : Desktop) : string :=
  "shadow_report_" ++ now_strftime d "%Y%m%d_%H%M%S" ++ ".txt".

(** Every field of the window passes the checks of [run_analysis], the
    selected image being [path]. *)
Definition submittable (self : ShadowDetectiveApp.t) (path : string) : Prop :=
  ShadowDetectiveApp.image_path self = Some path /\ path <> ""
  /\ str_strip (ShadowDetectiveApp.api_input self) <> ""
  /\ str_strip (ShadowDetectiveApp.lat_input self) <> ""
  /\ str_strip (ShadowDetectiveApp.lon_input self) <> ""
  /\ str_strip (ShadowDetectiveApp.prompt_edit self) <> "".

(** The worker [run_analysis] builds from the window. *)
Definition worker_of (self : ShadowDetectiveApp.t) (path : string) : APIWorker.t :=
  APIWorker.__init__ (str_strip (ShadowDetectiveApp.api_input self)) path
    (str_strip (ShadowDetectiveApp.lat_input self))
    (str_strip (ShadowDetectiveApp.lon_input self))
    (str_strip (ShadowDetectiveApp.prompt_edit self)).

(** The request the worker sends for an encoded image. *)
Definition request_of (worker : APIWorker.t) (base64_image mime_type : string)
  : ChatRequest :=
  mkRequest "gpt-4o"
    (APIWorker.prompt_text (APIWorker.prompt_template worker)
       (APIWorker.lat worker) (APIWorker.lon worker))
    ("data:" ++ mime_type ++ ";base64," ++ base64_image) 1000.

(** The window after the run of [worker]: the inputs as they were, the
    button re-armed, the progress bar hidden. *)
Definition window_after (self : ShadowDetectiveApp.t) (path : string)
    (save_enabled : bool) (result : string) : ShadowDetectiveApp.t :=
  ShadowDetectiveApp.mk (Some path)
    (Some (APIWorker.deleteLater (worker_of self path)))
    (ShadowDetectiveApp.api_input self) (ShadowDetectiveApp.lat_input self)
    (ShadowDetectiveApp.lon_input self) (ShadowDetectiveApp.prompt_edit self)
    true false save_enabled result.

(* ================================================================== *)
(** * Part II: properties *)
(* ================================================================== *)

(** ** Strings: [in], [replace], [strip] *)

Lemma str_contains_cons (sub : string) (c : ascii) (s : string) :
  str_contains sub (String c s)
  = prefix sub (String c s) || str_contains sub s.
Proof. reflexivity. Qed.

Lemma prefix_app (p s : string) : prefix p (p ++ s) = true.
Proof.
  induction p as [|c p IH]; simpl.
  - destruct s; reflexivity.
  - destruct (ascii_dec c c) as [_|ne]; [exact IH | now elim ne].
Qed.

Lemma prefix_length (p s : string) :
  prefix p s = true -> (String.length p <= String.length s)%nat.
Proof.
  revert s; induction p as [|c p IH]; intros s H; simpl; [lia|].
  destruct s as [|d s]; simpl in H; [discriminate|].
  destruct (ascii_dec c d); [|discriminate].
  apply IH in H; simpl; lia.
Qed.

Lemma append_assoc3 (a b c : string) : (a ++ b) ++ c = a ++ b ++ c.
Proof. induction a as [|x a IH]; simpl; [reflexivity | now rewrite IH]. Qed.

Section ReplaceScan.

Variables old new : string.

Lemma replace_scan_absent (s : string) :
  str_contains old s = false -> replace_scan old new s 0 = s.
Proof.
  induction s as [|c s IH]; intros H; [reflexivity|].
  rewrite str_contains_cons in H.
  apply orb_false_iff in H as [Hp Hs].
  cbn [replace_scan]; rewrite Hp, (IH Hs); reflexivity.
Qed.

(** Passing over the rest of a matched occurrence. *)
Lemma replace_scan_skip (q s : string) :
  replace_scan old new (q ++ s) (String.length q) = replace_scan old new s 0.
Proof.
  induction q as [|c q IH]; simpl; [reflexivity | exact IH].
Qed.



End ReplaceScan.

Lemma str_replace_absent (s old new : string) :
  str_contains old s = false -> str_replace s old new = s.
Proof.
  destruct old as [|c old]; intros H.
  - destruct s; discriminate.
  - now apply replace_scan_absent.
Qed.


Lemma str_empty_iff (s : string) : str_empty s = true <-> s = "".
Proof. destruct s; simpl; split; congruence. Qed.

Lemma lstrip_nonspace (s : string) : has_nonspace (lstrip s) = has_nonspace s.
Proof.
  induction s as [|c s IH]; simpl; [reflexivity|].
  destruct (isspace c) eqn:E; simpl; [exact IH | now rewrite E].
Qed.

Lemma rstrip_nonspace (s : string) : has_nonspace (rstrip s) = has_nonspace s.
Proof.
  induction s as [|c s IH]; simpl; [reflexivity|].
  destruct (rstrip s) as [|d r] eqn:E.
  - rewrite <- IH; destruct (isspace c) eqn:Ec; simpl; now rewrite ?Ec.
  - rewrite <- IH; reflexivity.
Qed.

Lemma rstrip_empty (s : string) : has_nonspace s = false -> rstrip s = "".
Proof.
  induction s as [|c s IH]; simpl; [reflexivity|]; intros H.
  apply orb_false_iff in H as [Hc Hs].
  rewrite (IH Hs). apply negb_false_iff in Hc; now rewrite Hc.
Qed.

Lemma str_strip_nonspace (s : string) :
  has_nonspace (str_strip s) = has_nonspace s.
Proof. unfold str_strip; now rewrite rstrip_nonspace, lstrip_nonspace. Qed.

(** A text is blank (empty or whitespace-only) exactly when stripping it
    leaves nothing. *)
Lemma str_strip_empty_iff (s : string) :
  str_strip s = "" <-> has_nonspace s = false.
Proof.
  split; intros H.
  - rewrite <- str_strip_nonspace, H; reflexivity.
  - unfold str_strip; apply rstrip_empty; now rewrite lstrip_nonspace.
Qed.

Lemma str_strip_nonempty (s : string) :
  str_empty (str_strip s) = false <-> has_nonspace s = true.
Proof.
  rewrite <- not_true_iff_false, str_empty_iff, str_strip_empty_iff.
  now rewrite not_false_iff_true.
Qed.

(** *** Replacing a token that cannot overlap itself *)

Section Unbordered.

Variables p new : string.

(** No occurrence of [p] starts before an occurrence of [p] and runs
    into it. *)
Hypothesis p_unbordered : forall c x y,
  prefix p (String c x ++ p ++ y) = prefix p (String c x).

Hypothesis p_nonempty : p <> "".

Lemma replace_scan_token (y : string) :
  replace_scan p new (p ++ y) 0 = new ++ replace_scan p new y 0.
Proof.
  destruct p as [|c q] eqn:E; [now elim p_nonempty|].
  change (String c q ++ y) with (String c (q ++ y)).
  cbn [replace_scan].
  change (String c (q ++ y)) with (String c q ++ y).
  rewrite prefix_app.
  replace (String.length (String c q) - 1)%nat with (String.length q)
    by (simpl; lia).
  now rewrite replace_scan_skip.
Qed.

Lemma replace_scan_app (y x : string) : forall k,
  (k <= String.length x)%nat ->
  replace_scan p new (x ++ p ++ y) k
  = replace_scan p new x k ++ new ++ replace_scan p new y 0.
Proof.
  induction x as [|c x IH]; intros k Hk.
  - simpl in Hk. replace k with 0%nat by lia.
    simpl; apply replace_scan_token.
  - change (String c x ++ p ++ y) with (String c (x ++ p ++ y)).
    destruct k as [|k]; cbn [replace_scan].
    + change (String c (x ++ p ++ y)) with (String c x ++ p ++ y).
      rewrite p_unbordered.
      destruct (prefix p (String c x)) eqn:Hp.
      * apply prefix_length in Hp; simpl in Hp.
        rewrite IH by lia. now rewrite append_assoc3.
      * rewrite IH by lia. reflexivity.
    + apply IH; simpl in Hk; lia.
Qed.

End Unbordered.

Lemma prefix_cons (a b : ascii) (p s : string) :
  prefix (String a p) (String b s) = Ascii.eqb a b && prefix p s.
Proof.
  cbn [prefix]. destruct (ascii_dec a b) as [e|ne].
  - subst; now rewrite Ascii.eqb_refl.
  - apply Ascii.eqb_neq in ne; now rewrite ne.
Qed.

Lemma prefix_empty_r (a : ascii) (p : string) : prefix (String a p) "" = false.
Proof. reflexivity. Qed.

Lemma prefix_empty_l (s : string) : prefix "" s = true.
Proof. destruct s; reflexivity. Qed.

(** Decide a [prefix] test of a literal against a text with unknown
    characters, one character comparison at a time. *)
Ltac prefix_cases :=
  cbn [append];
  repeat (rewrite ?prefix_cons, ?prefix_empty_r, ?prefix_empty_l;
          match goal with
          | |- context [Ascii.eqb ?a ?b] =>
              destruct (Ascii.eqb a b) eqn:?; cbn [andb]
          end);
  rewrite ?prefix_empty_l;
  try reflexivity; try discriminate.

Lemma lat_unbordered (c : ascii) (x y : string) :
  prefix "{lat}" (String c x ++ "{lat}" ++ y) = prefix "{lat}" (String c x).
Proof. destruct x as [|c2 [|c3 [|c4 [|c5 x]]]]; prefix_cases. Qed.

Lemma lon_unbordered (c : ascii) (x y : string) :
  prefix "{lon}" (String c x ++ "{lon}" ++ y) = prefix "{lon}" (String c x).
Proof. destruct x as [|c2 [|c3 [|c4 [|c5 x]]]]; prefix_cases. Qed.

(** Every occurrence of a placeholder is replaced, whatever surrounds it. *)
Lemma str_replace_lat_app (x y new : string) :
  str_replace (x ++ "{lat}" ++ y) "{lat}" new
  = str_replace x "{lat}" new ++ new ++ str_replace y "{lat}" new.
Proof.
  unfold str_replace.
  apply replace_scan_app; [exact lat_unbordered | discriminate | lia].
Qed.

Lemma str_replace_lon_app (x y new : string) :
  str_replace (x ++ "{lon}" ++ y) "{lon}" new
  = str_replace x "{lon}" new ++ new ++ str_replace y "{lon}" new.
Proof.
  unfold str_replace.
  apply replace_scan_app; [exact lon_unbordered | discriminate | lia].
Qed.

(** ** Prompt resolution *)

(** The example of the specification. *)
Example prompt_text_example :
  APIWorker.prompt_text "lat={lat} lon={lon}" "48.8584" "2.2945"
  = "lat=48.8584 lon=2.2945".
Proof. reflexivity. Qed.

(** C8: when the resolved prompt holds no residual [{lat}] or [{lon}]
    token, applying the substitution step to it once more gives the same
    string: the step is idempotent once both placeholders are replaced. *)
Theorem prompt_substitution_idempotent (template lat lon : string) :
  let resolved := APIWorker.prompt_text template lat lon in
  str_contains "{lat}" resolved = false ->
  str_contains "{lon}" resolved = false ->
  APIWorker.prompt_text resolved lat lon = resolved.
Proof.
  intros resolved Hlat Hlon.
  unfold APIWorker.prompt_text at 1.
  assert (E : str_replace resolved "{lat}" lat = resolved)
    by now apply str_replace_absent.
  rewrite E. now apply str_replace_absent.
Qed.

Lemma prompt_substitution_idempotent_witness :
  APIWorker.prompt_text "lat={lat} lon={lon}" "48.8584" "2.2945"
  = "lat=48.8584 lon=2.2945"
  /\ APIWorker.prompt_text "lat=48.8584 lon=2.2945" "48.8584" "2.2945"
     = "lat=48.8584 lon=2.2945".
Proof.
  split; [reflexivity|].
  exact (prompt_substitution_idempotent
           "lat={lat} lon={lon}" "48.8584" "2.2945" eq_refl eq_refl).
Defined.

(** C10: [{lat}] is substituted everywhere first and [{lon}] afterwards,
    so a [{lon}] token inside the latitude text is itself replaced by the
    longitude: for a template [u{lat}v] and a latitude [a{lon}b], the
    resolved prompt carries the longitude where that token stood. *)
Theorem lat_substituted_before_lon (u v a b lon : string) :
  let lat := a ++ "{lon}" ++ b in
  APIWorker.prompt_text (u ++ "{lat}" ++ v) lat lon
  = str_replace (str_replace u "{lat}" lat ++ a) "{lon}" lon
    ++ lon
    ++ str_replace (b ++ str_replace v "{lat}" lat) "{lon}" lon.
Proof.
  intros lat. unfold APIWorker.prompt_text.
  rewrite str_replace_lat_app.
  unfold lat at 2.
  rewrite !append_assoc3, <- (append_assoc3 _ a), str_replace_lon_app.
  reflexivity.
Qed.

Example lat_holding_lon_token :
  APIWorker.prompt_text "at {lat}, {lon}" "<{lon}>" "2.2945"
  = "at <2.2945>, 2.2945".
Proof. reflexivity. Qed.




(** ** Classification of failure messages *)

(** A 429 message of the provider whose usage figure happens to hold the
    digits 401: it carries both rate-limit markers and is given the
    authentication hint, not the rate-limit one. *)
Lemma rate_limit_message_given_auth_hint :
  str_contains "429"
    "Error code: 429 - Rate limit reached: Limit 30000, Used 24015" = true
  /\ str_contains "Rate limit"
    "Error code: 429 - Rate limit reached: Limit 30000, Used 24015" = true
  /\ ShadowDetectiveApp.user_msg
       "Error code: 429 - Rate limit reached: Limit 30000, Used 24015"
     = "Authentication failed. Please check your OpenAI API key."
  /\ String.eqb
       (ShadowDetectiveApp.user_msg
          "Error code: 429 - Rate limit reached: Limit 30000, Used 24015")
       "Rate limit or quota exceeded. Wait a moment or check your OpenAI billing."
     = false.
Proof. repeat split. Qed.

(** C4 (amended): the markers are tried in order and the first class that
    matches wins.  A message with an authentication marker ("401",
    "Incorrect API key", "invalid_api_key") gets the authentication hint,
    which differs from the message; one with no such marker and with
    "429" or "Rate limit" gets the rate-limit hint; one with neither and
    with "Connection", "Network" or, in any letter case, "timeout" gets
    the connectivity hint; any other message is passed through as it is. *)
Theorem user_msg_by_precedence (error_msg : string) :
  let auth := str_contains "401" error_msg
              || str_contains "Incorrect API key" error_msg
              || str_contains "invalid_api_key" error_msg in
  let rate := str_contains "429" error_msg
              || str_contains "Rate limit" error_msg in
  let net := str_contains "Connection" error_msg
             || str_contains "Network" error_msg
             || str_contains "timeout" (str_lower error_msg) in
  (auth = true ->
   ShadowDetectiveApp.user_msg error_msg
   = "Authentication failed. Please check your OpenAI API key."
   /\ ShadowDetectiveApp.user_msg error_msg <> error_msg)
  /\ (auth = false -> rate = true ->
      ShadowDetectiveApp.user_msg error_msg
      = "Rate limit or quota exceeded. Wait a moment or check your OpenAI billing.")
  /\ (auth = false -> rate = false -> net = true ->
      ShadowDetectiveApp.user_msg error_msg
      = "Network error. Check your internet connection and try again.")
  /\ (auth = false -> rate = false -> net = false ->
      ShadowDetectiveApp.user_msg error_msg = error_msg).
Proof.
  intros auth rate net. unfold ShadowDetectiveApp.user_msg.
  fold auth rate net.
  repeat split; intros; subst;
    repeat match goal with H : _ = _ |- _ => rewrite H end;
    try reflexivity.
  intros E. unfold auth in H. rewrite <- E in H. discriminate.
Qed.

Lemma user_msg_by_precedence_witness :
  ShadowDetectiveApp.user_msg "Error code: 401 - Unauthorized"
  = "Authentication failed. Please check your OpenAI API key."
  /\ ShadowDetectiveApp.user_msg "Error code: 429 - slow down"
     = "Rate limit or quota exceeded. Wait a moment or check your OpenAI billing."
  /\ ShadowDetectiveApp.user_msg "Request TIMEOUT"
     = "Network error. Check your internet connection and try again."
  /\ ShadowDetectiveApp.user_msg "model overloaded" = "model overloaded".
Proof.
  split; [|split; [|split]].
  - apply (proj1 (user_msg_by_precedence "Error code: 401 - Unauthorized")).
    reflexivity.
  - apply (proj1 (proj2 (user_msg_by_precedence "Error code: 429 - slow down")));
      reflexivity.
  - apply (proj1 (proj2 (proj2 (user_msg_by_precedence "Request TIMEOUT"))));
      reflexivity.
  - apply (proj2 (proj2 (proj2 (user_msg_by_precedence "model overloaded"))));
      reflexivity.
Defined.

(** ** Submission *)

(** [run_analysis] either shows one warning and leaves the window as it
    was, or every field is filled in and the worker is started. *)
Lemma run_analysis_cases (self : ShadowDetectiveApp.t) :
  (exists text,
      ShadowDetectiveApp.run_analysis self = (self, [Warning "Error" text]))
  \/ (exists path self',
         ShadowDetectiveApp.image_path self = Some path
         /\ path <> ""
         /\ str_strip (ShadowDetectiveApp.api_input self) <> ""
         /\ str_strip (ShadowDetectiveApp.lat_input self) <> ""
         /\ str_strip (ShadowDetectiveApp.lon_input self) <> ""
         /\ str_strip (ShadowDetectiveApp.prompt_edit self) <> ""
         /\ ShadowDetectiveApp.worker self'
            = Some (APIWorker.__init__
                      (str_strip (ShadowDetectiveApp.api_input self)) path
                      (str_strip (ShadowDetectiveApp.lat_input self))
                      (str_strip (ShadowDetectiveApp.lon_input self))
                      (str_strip (ShadowDetectiveApp.prompt_edit self)))
         /\ ShadowDetectiveApp.run_analysis self
            = (self',
               [Start (APIWorker.__init__
                         (str_strip (ShadowDetectiveApp.api_input self)) path
                         (str_strip (ShadowDetectiveApp.lat_input self))
                         (str_strip (ShadowDetectiveApp.lon_input self))
                         (str_strip (ShadowDetectiveApp.prompt_edit self)))])).
Proof.
  unfold ShadowDetectiveApp.run_analysis.
  destruct (str_strip (ShadowDetectiveApp.api_input self)) as [|k0 k] eqn:Ek;
    cbn [str_empty]; [left; eauto|].
  destruct (ShadowDetectiveApp.image_path self) as [[|p0 p]|];
    cbn [str_empty]; [left; eauto | | left; eauto].
  destruct (str_strip (ShadowDetectiveApp.lat_input self)) as [|a0 a];
    cbn [str_empty orb]; [left; eauto|].
  destruct (str_strip (ShadowDetectiveApp.lon_input self)) as [|o0 o];
    cbn [str_empty orb]; [left; eauto|].
  destruct (str_strip (ShadowDetectiveApp.prompt_edit self)) as [|t0 t];
    cbn [str_empty]; [left; eauto|].
  right. do 2 eexists.
  split; [reflexivity|].
  do 5 (split; [discriminate|]).
  split; [|reflexivity]. reflexivity.
Qed.

(** C6: when the credential, the image path, a coordinate or the prompt
    is empty, the click is answered by one warning box and nothing else:
    the window is left as it was (the button stays enabled, no progress
    bar, no worker stored), no thread is started and the provider is not
    called. *)
Theorem empty_field_rejected_without_call
    (w : World) (self : ShadowDetectiveApp.t) :
  ShadowDetectiveApp.api_input self = ""
  \/ ShadowDetectiveApp.image_path self = None
  \/ ShadowDetectiveApp.image_path self = Some ""
  \/ ShadowDetectiveApp.lat_input self = ""
  \/ ShadowDetectiveApp.lon_input self = ""
  \/ ShadowDetectiveApp.prompt_edit self = "" ->
  exists text,
    ShadowDetectiveApp.run_analysis self = (self, [Warning "Error" text])
    /\ ShadowDetectiveApp.submission w self
       = (self, [Warning "Error" text], []).
Proof.
  intros Hempty.
  destruct (run_analysis_cases self)
    as [[text E] | (path & self' & Hi & Hp & Hk & Hla & Hlo & Hpr & _)].
  - exists text; split; [exact E|].
    unfold ShadowDetectiveApp.submission; rewrite E; reflexivity.
  - exfalso.
    destruct Hempty as [H|[H|[H|[H|[H|H]]]]]; rewrite H in *;
      try discriminate;
      first [ now apply Hk | now apply Hla | now apply Hlo | now apply Hpr
            | injection Hi as <-; now apply Hp ].
Qed.

Lemma empty_field_rejected_without_call_witness :
  ShadowDetectiveApp.submission (stub_world (Ok photo) None (Ok northeast))
    (ShadowDetectiveApp.mk (Some "photo.jpg") None "" "48.8584" "2.2945"
       DEFAULT_PROMPT true false false "")
  = (ShadowDetectiveApp.mk (Some "photo.jpg") None "" "48.8584" "2.2945"
       DEFAULT_PROMPT true false false "",
     [Warning "Error" "Please enter your OpenAI API key."], []).
Proof.
  destruct (@empty_field_rejected_without_call
              (stub_world (Ok photo) None (Ok northeast))
              (ShadowDetectiveApp.mk (Some "photo.jpg") None "" "48.8584"
                 "2.2945" DEFAULT_PROMPT true false false "")
              (or_introl eq_refl)) as [text [E1 E2]].
  rewrite E2. injection E1 as <-. reflexivity.
Defined.

(** With every field filled in, [run_analysis] stores a fresh worker in
    [self.worker], switches the widgets to the running state and starts
    the worker. *)
Lemma run_analysis_accepts (self : ShadowDetectiveApp.t) (path : string) :
  ShadowDetectiveApp.image_path self = Some path -> path <> "" ->
  str_strip (ShadowDetectiveApp.api_input self) <> "" ->
  str_strip (ShadowDetectiveApp.lat_input self) <> "" ->
  str_strip (ShadowDetectiveApp.lon_input self) <> "" ->
  str_strip (ShadowDetectiveApp.prompt_edit self) <> "" ->
  let worker :=
    APIWorker.__init__ (str_strip (ShadowDetectiveApp.api_input self)) path
      (str_strip (ShadowDetectiveApp.lat_input self))
      (str_strip (ShadowDetectiveApp.lon_input self))
      (str_strip (ShadowDetectiveApp.prompt_edit self)) in
  ShadowDetectiveApp.run_analysis self
  = (ShadowDetectiveApp.mk (Some path) (Some worker)
       (ShadowDetectiveApp.api_input self) (ShadowDetectiveApp.lat_input self)
       (ShadowDetectiveApp.lon_input self) (ShadowDetectiveApp.prompt_edit self)
       false true false "",
     [Start worker]).
Proof.
  intros Hi Hp Hk Hla Hlo Hpr worker.
  destruct (run_analysis_cases self)
    as [[text E] | (path' & self' & Hi' & _ & _ & _ & _ & _ & _ & E)].
  - exfalso. revert E. unfold ShadowDetectiveApp.run_analysis. rewrite Hi.
    destruct (str_strip (ShadowDetectiveApp.api_input self)); [now elim Hk|].
    destruct path; [now elim Hp|].
    destruct (str_strip (ShadowDetectiveApp.lat_input self)); [now elim Hla|].
    destruct (str_strip (ShadowDetectiveApp.lon_input self)); [now elim Hlo|].
    destruct (str_strip (ShadowDetectiveApp.prompt_edit self)); [now elim Hpr|].
    discriminate.
  - rewrite Hi in Hi'; injection Hi' as <-.
    revert E. unfold ShadowDetectiveApp.run_analysis. rewrite Hi.
    destruct (str_strip (ShadowDetectiveApp.api_input self)); [now elim Hk|].
    destruct path; [now elim Hp|].
    destruct (str_strip (ShadowDetectiveApp.lat_input self)); [now elim Hla|].
    destruct (str_strip (ShadowDetectiveApp.lon_input self)); [now elim Hlo|].
    destruct (str_strip (ShadowDetectiveApp.prompt_edit self)); [now elim Hpr|].
    reflexivity.
Qed.

(** C9 (code defect): the run of an accepted submission ends with the
    credential still held by the window.  After the signal is delivered
    and the button re-armed, [self.worker] still refers to the finished
    worker, whose Qt object is deleted and whose [api_key] attribute is
    the key that was submitted. *)
Theorem credential_retained_after_run
    (w : World) (self : ShadowDetectiveApp.t) (path : string) :
  ShadowDetectiveApp.image_path self = Some path -> path <> "" ->
  str_strip (ShadowDetectiveApp.api_input self) <> "" ->
  str_strip (ShadowDetectiveApp.lat_input self) <> "" ->
  str_strip (ShadowDetectiveApp.lon_input self) <> "" ->
  str_strip (ShadowDetectiveApp.prompt_edit self) <> "" ->
  let after := fst (fst (ShadowDetectiveApp.submission w self)) in
  ShadowDetectiveApp.btn_analyze_enabled after = true
  /\ option_map APIWorker.qt_deleted (ShadowDetectiveApp.worker after)
     = Some true
  /\ option_map APIWorker.api_key (ShadowDetectiveApp.worker after)
     = Some (str_strip (ShadowDetectiveApp.api_input self)).
Proof.
  intros Hi Hp Hk Hla Hlo Hpr after. subst after.
  unfold ShadowDetectiveApp.submission.
  rewrite (run_analysis_accepts self Hi Hp Hk Hla Hlo Hpr).
  cbn [ShadowDetectiveApp.started].
  destruct (APIWorker.run w _) as [[result_text|error_msg] calls];
    cbn; repeat split; reflexivity.
Qed.

Lemma credential_retained_after_run_witness :
  ShadowDetectiveApp.worker
    (fst (fst (ShadowDetectiveApp.submission
                 (stub_world (Ok photo) (Some "image/jpeg") (Ok northeast))
                 (filled_app DEFAULT_PROMPT))))
  = Some (APIWorker.mk "sk-test" "photo.jpg" "48.8584" "2.2945"
            DEFAULT_PROMPT true)
  /\ option_map APIWorker.api_key
       (ShadowDetectiveApp.worker
          (fst (fst (ShadowDetectiveApp.submission
                       (stub_world (Ok photo) (Some "image/jpeg") (Ok northeast))
                       (filled_app DEFAULT_PROMPT)))))
     = Some "sk-test".
Proof.
  split; [vm_compute; reflexivity|].
  apply (@credential_retained_after_run
           (stub_world (Ok photo) (Some "image/jpeg") (Ok northeast))
           (filled_app DEFAULT_PROMPT) "photo.jpg" eq_refl);
    discriminate.
Defined.

(** The full run of the specification's last example: the completion
    slot receives the provider's answer, no error box is shown, and one
    call is made. *)
Example full_run_with_stubs :
  let '(after, acts, calls) :=
    ShadowDetectiveApp.submission
      (stub_world (Ok photo) (Some "image/jpeg") (Ok northeast))
      (filled_app "lat={lat} lon={lon}") in
  ShadowDetectiveApp.result_box after = northeast
  /\ acts = [Start (APIWorker.__init__ "sk-test" "photo.jpg" "48.8584"
                      "2.2945" "lat={lat} lon={lon}")]
  /\ calls = [("sk-test",
               mkRequest "gpt-4o" "lat=48.8584 lon=2.2945"
                 "data:image/jpeg;base64,<JPEG:RGB>" 1000)].
Proof. vm_compute. repeat split. Qed.

(** ** Image encoding: pixel dimensions *)

Lemma inject_Z_le0 (z : Z) : (z < 1)%Z -> (inject_Z z <= 0)%Q.
Proof. intros H. change 0%Q with (inject_Z 0). rewrite <- Zle_Qle. lia. Qed.

(** [round_aspect] gives a whole number of pixels, at least one, less
    than one pixel away from the exact value. *)
Lemma round_aspect_close (number : Q) (key : Z -> Q) :
  (0 < number)%Q ->
  (1 <= round_aspect number key)%Z
  /\ (Qabs (inject_Z (round_aspect number key) - number) < 1)%Q.
Proof.
  intros Hpos. unfold round_aspect.
  pose proof (Qfloor_le number) as F1.
  pose proof (Qlt_floor number) as F2.
  pose proof (Qle_ceiling number) as C1.
  pose proof (Qceiling_lt number) as C2.
  rewrite inject_Z_plus in F2. unfold Zminus in C2. rewrite inject_Z_plus in C2.
  change (inject_Z 1) with 1%Q in F2. change (inject_Z (- (1))) with (-1 # 1) in C2.
  split; [lia|].
  apply Qabs_Qlt_condition.
  destruct (Qle_bool (key (Qfloor number)) (key (Qceiling number))).
  - destruct (Z.max_spec (Qfloor number) 1) as [[Hlt ->]|[Hge ->]].
    + change (inject_Z 1) with 1%Q.
      pose proof (@inject_Z_le0 _ Hlt). lra.
    + lra.
  - destruct (Z.max_spec (Qceiling number) 1) as [[Hlt ->]|[Hge ->]].
    + change (inject_Z 1) with 1%Q.
      pose proof (@inject_Z_le0 _ Hlt). lra.
    + lra.
Qed.

Lemma round_aspect_upper (number : Q) (key : Z -> Q) (b : Z) :
  (1 <= b)%Z -> (number <= inject_Z b)%Q -> (round_aspect number key <= b)%Z.
Proof.
  intros Hb Hle. unfold round_aspect.
  pose proof (@Qfloor_resp_le _ _ Hle) as F. rewrite Qfloor_Z in F.
  pose proof (@Qceiling_resp_le _ _ Hle) as C. rewrite Qceiling_Z in C.
  destruct (Qle_bool _ _); lia.
Qed.

Section ImageSize.

  Local Open Scope Z_scope.

Lemma thumbnail_fits (img : Image) :
  width img <= 1920 -> height img <= 1920 ->
  thumbnail img (1920, 1920) = Ok img.
Proof.
  intros Hw Hh. unfold thumbnail, preserve_aspect_ratio.
  replace (1920 >=? width img) with true by (symmetry; apply Z.geb_le; lia).
  replace (1920 >=? height img) with true by (symmetry; apply Z.geb_le; lia).
  reflexivity.
Qed.

Lemma thumbnail_shrinks (img : Image) :
  0 < width img -> 0 < height img -> 1920 < Z.max (width img) (height img) ->
  exists x y,
    thumbnail img (1920, 1920)
    = Ok (mkImage x y (mode img) (format img) (_getexif img))
    /\ 1 <= x <= 1920 /\ 1 <= y <= 1920
    /\ ((width img <= height img /\ y = 1920
         /\ (Qabs (inject_Z x
                   - 1920 * (inject_Z (width img) / inject_Z (height img))) < 1)%Q)
        \/ (height img < width img /\ x = 1920
            /\ (Qabs (inject_Z y
                      - 1920 * (inject_Z (height img) / inject_Z (width img))) < 1)%Q)).
Proof.
  intros Hw Hh Hbig. unfold thumbnail, preserve_aspect_ratio.
  assert (Hfit : (1920 >=? width img) && (1920 >=? height img) = false).
  { apply andb_false_iff.
    destruct (Z.max_spec (width img) (height img)) as [[_ E]|[_ E]];
      rewrite E in Hbig; [right | left]; rewrite Z.geb_leb; apply Z.leb_gt; lia. }
  rewrite Hfit.
  replace (height img =? 0) with false by (symmetry; apply Z.eqb_neq; lia).
  assert (HW : (0 < inject_Z (width img))%Q)
    by (change 0%Q with (inject_Z 0); rewrite <- Zlt_Qlt; lia).
  assert (HH : (0 < inject_Z (height img))%Q)
    by (change 0%Q with (inject_Z 0); rewrite <- Zlt_Qlt; lia).
  set (aspect := (inject_Z (width img) / inject_Z (height img))%Q).
  assert (Ha : (0 < aspect)%Q)
    by (apply Qlt_shift_div_l; [exact HH | lra]).
  assert (E1 : (inject_Z 1920 / inject_Z 1920 == 1)%Q) by reflexivity.
  destruct (Qle_bool aspect (inject_Z 1920 / inject_Z 1920)) eqn:Hc.
  - apply Qle_bool_iff in Hc. rewrite E1 in Hc.
    assert (Hwh : width img <= height img).
    { apply Z.le_ngt; intros Hlt.
      assert (1 < aspect)%Q; [|lra].
      apply Qlt_shift_div_l; [exact HH|].
      rewrite Zlt_Qlt in Hlt. lra. }
    set (number := (inject_Z 1920 * aspect)%Q).
    assert (Hn : (0 < number)%Q) by (unfold number; change (inject_Z 1920) with (1920%Q); lra).
    destruct (@round_aspect_close number
                (fun n => Qabs (aspect - inject_Z n / inject_Z 1920)) Hn)
      as [Hge Hclose].
    eexists _, _; split; [reflexivity|].
    split; [split; [exact Hge|]|].
    + apply round_aspect_upper; [lia|].
      unfold number; change (inject_Z 1920) with (1920%Q); lra.
    + split; [lia|]. left. repeat split; [exact Hwh | exact Hclose].
  - assert (Hc' : (1 < aspect)%Q).
    { apply Qnot_le_lt; intros Hle.
      assert (Qle_bool aspect (inject_Z 1920 / inject_Z 1920) = true)
        by (apply Qle_bool_iff; rewrite E1; exact Hle).
      congruence. }
    assert (Hhw : height img < width img).
    { apply Z.lt_nge; intros Hle.
      assert (aspect <= 1)%Q; [|lra].
      apply Qle_shift_div_r; [exact HH|].
      rewrite Zle_Qle in Hle. lra. }
    set (number := (inject_Z 1920 / aspect)%Q).
    assert (Hn : (0 < number)%Q)
      by (apply Qlt_shift_div_l; [exact Ha | change (inject_Z 1920) with (1920%Q); lra]).
    assert (Hn' : (number <= inject_Z 1920)%Q)
      by (apply Qle_shift_div_r; [exact Ha | change (inject_Z 1920) with (1920%Q); lra]).
    assert (En : (number
                  == 1920 * (inject_Z (height img) / inject_Z (width img)))%Q).
    { unfold number, aspect. change (inject_Z 1920) with (1920%Q).
      field. split; lra. }
    destruct (@round_aspect_close number
                (fun n => if n =? 0 then 0%Q
                          else Qabs (aspect - inject_Z 1920 / inject_Z n)) Hn)
      as [Hge Hclose].
    eexists _, _; split; [reflexivity|].
    split; [lia|]. split; [split; [exact Hge|]|].
    + apply round_aspect_upper; [lia | exact Hn'].
    + right. repeat split; [exact Hhw|].
      rewrite <- En. exact Hclose.
Qed.

(** Whether or not the colour mode is converted, the size stays. *)
Lemma convert_keeps_size (c : bool) (img : Image) (m : string) :
  width (if c then convert img m else img) = width img
  /\ height (if c then convert img m else img) = height img.
Proof. destruct c; split; reflexivity. Qed.

(** C1: [encode_image] hands to the serializer an image of the original
    pixel dimensions when the longer one is at most 1920; when it exceeds
    1920, the longer side becomes 1920, the other side is at least one
    pixel and less than one pixel away from its exactly proportional
    value, so that neither side exceeds 1920 and the aspect ratio is kept
    within rounding.  The image [out] is the one serialized whatever the
    serializer, the base64 encoder and the provider are. *)
Theorem encode_image_dimensions
    (image_open : string -> result Image) (guess : string -> option string)
    (image_path : string) (img : Image) :
  image_open image_path = Ok img ->
  0 < width img -> 0 < height img ->
  exists out fmt mime_type,
    (forall save b64 create,
        APIWorker.encode_image (mkWorld image_open guess save b64 create) image_path
        = (data <- save out fmt ;; Ok (b64 data, mime_type))%py)
    /\ (Z.max (width img) (height img) <= 1920 ->
        width out = width img /\ height out = height img)
    /\ (1920 < Z.max (width img) (height img) ->
        Z.max (width out) (height out) <= 1920
        /\ 1 <= width out /\ 1 <= height out
        /\ ((width img <= height img /\ height out = 1920
             /\ (Qabs (inject_Z (width out)
                       - 1920 * (inject_Z (width img) / inject_Z (height img)))
                 < 1)%Q)
            \/ (height img < width img /\ width out = 1920
                /\ (Qabs (inject_Z (height out)
                          - 1920 * (inject_Z (height img) / inject_Z (width img)))
                    < 1)%Q))).
Proof.
  intros Ho Hw Hh.
  assert (Ht : exists x y,
             thumbnail img (1920, 1920)
             = Ok (mkImage x y (mode img) (format img) (_getexif img))
             /\ (Z.max (width img) (height img) <= 1920 ->
                 x = width img /\ y = height img)
             /\ (1920 < Z.max (width img) (height img) ->
                 Z.max x y <= 1920 /\ 1 <= x /\ 1 <= y
                 /\ ((width img <= height img /\ y = 1920
                      /\ (Qabs (inject_Z x
                                - 1920 * (inject_Z (width img)
                                          / inject_Z (height img))) < 1)%Q)
                     \/ (height img < width img /\ x = 1920
                         /\ (Qabs (inject_Z y
                                   - 1920 * (inject_Z (height img)
                                             / inject_Z (width img))) < 1)%Q)))).
  { destruct (Z.le_gt_cases (Z.max (width img) (height img)) 1920) as [Hs|Hb].
    - exists (width img), (height img).
      rewrite thumbnail_fits by lia.
      split; [now destruct img | split; [now split | lia]].
    - destruct (thumbnail_shrinks img Hw Hh Hb) as (x & y & E & Hx & Hy & Hr).
      exists x, y. split; [exact E | split; [lia|]].
      intros _. repeat (split; [lia|]). exact Hr. }
  destruct Ht as (x & y & Et & Hsmall & Hbig).
  set (img1 := mkImage x y (mode img) (format img) (_getexif img)) in *.
  set (fmt1 := match format img1 with
               | Some f => if str_empty f then "JPEG" else f
               | None => "JPEG"
               end).
  set (target := match guess image_path with
                 | Some m => if str_empty m then ("image/jpeg", "JPEG")
                             else (m, fmt1)
                 | None => ("image/jpeg", "JPEG")
                 end).
  exists (if String.eqb (fst target) "image/jpeg"
             && existsb (String.eqb (mode img1)) ["RGBA"; "P"]
          then convert img1 "RGB" else img1), (snd target), (fst target).
  split.
  - intros save b64 create.
    unfold APIWorker.encode_image, MAX_IMAGE_DIMENSION.
    cbn [Image_open guess_type Image_save b64encode].
    rewrite Ho; cbn [rbind]. rewrite Et; cbn [rbind].
    fold fmt1. fold target. now destruct target.
  - destruct (convert_keeps_size
                (String.eqb (fst target) "image/jpeg"
                 && existsb (String.eqb (mode img1)) ["RGBA"; "P"])
                img1 "RGB") as [-> ->].
    split; [exact Hsmall | exact Hbig].
Qed.

End ImageSize.

Lemma encode_image_dimensions_witness :
  exists out fmt mime_type,
    (forall save b64 create,
        APIWorker.encode_image
          (mkWorld (fun _ => Ok photo) (fun _ => Some "image/jpeg")
             save b64 create)
          "photo.jpg"
        = (data <- save out fmt ;; Ok (b64 data, mime_type))%py)
    /\ (Z.max (width out) (height out) <= 1920)%Z.
Proof.
  destruct (@encode_image_dimensions
              (fun _ => Ok photo) (fun _ => Some "image/jpeg")
              "photo.jpg" photo eq_refl eq_refl eq_refl)
    as (out & fmt & mime_type & E & _ & Hbig).
  exists out, fmt, mime_type. split; [exact E|].
  apply Hbig. reflexivity.
Defined.

Example photo_thumbnail :
  thumbnail photo (MAX_IMAGE_DIMENSION, MAX_IMAGE_DIMENSION)
  = Ok (mkImage 1920 1440 "RGB" (Some "JPEG") (_getexif photo)).
Proof. reflexivity. Qed.

(** ** Image encoding: colour modes *)

(** With the JPEG MIME type, an image in mode RGBA or P reaches the
    serializer in mode RGB, whatever its size. *)
Lemma rgba_and_palette_converted
    (image_open : string -> result Image) (guess : string -> option string)
    (image_path : string) (img : Image) :
  image_open image_path = Ok img ->
  (0 < width img)%Z -> (0 < height img)%Z ->
  guess image_path = None \/ guess image_path = Some "image/jpeg" ->
  mode img = "RGBA" \/ mode img = "P" ->
  exists out fmt,
    (forall save b64 create,
        APIWorker.encode_image
          (mkWorld image_open guess save b64 create) image_path
        = (data <- save out fmt ;; Ok (b64 data, "image/jpeg"))%py)
    /\ mode out = "RGB".
Proof.
  intros Ho Hw Hh Hg Hm.
  assert (Ht : exists x y,
             thumbnail img (1920, 1920)%Z
             = Ok (mkImage x y (mode img) (format img) (_getexif img))).
  { destruct (Z.le_gt_cases (Z.max (width img) (height img)) 1920) as [Hs|Hb].
    - exists (width img), (height img).
      rewrite thumbnail_fits by lia. now destruct img.
    - destruct (thumbnail_shrinks img Hw Hh Hb) as (x & y & E & _).
      now exists x, y. }
  destruct Ht as (x & y & Et).
  exists (convert (mkImage x y (mode img) (format img) (_getexif img)) "RGB").
  destruct Hg as [Eg | Eg].
  - exists "JPEG". split; [|reflexivity]. intros save b64 create.
    unfold APIWorker.encode_image, MAX_IMAGE_DIMENSION.
    cbn [Image_open guess_type Image_save b64encode].
    rewrite Ho; cbn [rbind]. rewrite Et; cbn [rbind]. rewrite Eg.
    destruct Hm as [Em | Em]; cbn [mode]; rewrite Em; reflexivity.
  - exists (match format img with
            | Some f => if str_empty f then "JPEG" else f
            | None => "JPEG"
            end).
    split; [|reflexivity]. intros save b64 create.
    unfold APIWorker.encode_image, MAX_IMAGE_DIMENSION.
    cbn [Image_open guess_type Image_save b64encode].
    rewrite Ho; cbn [rbind]. rewrite Et; cbn [rbind]. rewrite Eg.
    destruct Hm as [Em | Em]; cbn [mode format]; rewrite Em; reflexivity.
Qed.

Lemma rgba_and_palette_converted_witness :
  exists out fmt,
    (forall save b64 create,
        APIWorker.encode_image
          (mkWorld (fun _ => Ok (mkImage 800 600 "RGBA" (Some "PNG") (Ok None)))
             (fun _ => None) save b64 create)
          "clip"
        = (data <- save out fmt ;; Ok (b64 data, "image/jpeg"))%py)
    /\ mode out = "RGB".
Proof.
  exact (@rgba_and_palette_converted
           (fun _ => Ok (mkImage 800 600 "RGBA" (Some "PNG") (Ok None)))
           (fun _ => None) "clip"
           (mkImage 800 600 "RGBA" (Some "PNG") (Ok None))
           eq_refl eq_refl eq_refl (or_introl eq_refl) (or_introl eq_refl)).
Defined.

(** C7 (code defect): a grayscale image with an alpha channel (mode LA)
    whose file name has no known extension gets the JPEG target, and it
    reaches the serializer unconverted, still in mode LA; Pillow's JPEG
    writer does not accept that mode. *)
Theorem gray_alpha_not_converted_for_jpeg
    (save : Image -> string -> result string) (b64 : string -> string)
    (create : string -> ChatRequest -> result string) (image_path : string) :
  APIWorker.encode_image
    (mkWorld (fun _ => Ok gray_alpha) (fun _ => None) save b64 create)
    image_path
  = (data <- save gray_alpha "JPEG" ;; Ok (b64 data, "image/jpeg"))%py
  /\ mode gray_alpha = "LA"
  /\ jpeg_writable (mode gray_alpha) = false
  /\ APIWorker.encode_image (stub_world (Ok gray_alpha) None (Ok northeast))
       image_path
     = Raise (mkExc "OSError" "cannot write mode LA as JPEG").
Proof. repeat split. Qed.

(** ** Rounding *)






(** ** Conversion of degrees, minutes and seconds *)

Lemma ref_in_SW_iff (ref : exif_value) :
  ref_in_SW ref = true <-> ref = VText "S" \/ ref = VText "W".
Proof.
  destruct ref as [s| | | |]; simpl; try (split; [discriminate | intros [H|H]; discriminate]).
  rewrite orb_true_iff, !String.eqb_eq.
  split; intros [H|H]; first [left; congruence | right; congruence].
Qed.







(** The coordinates of the specification's example, written as degrees,
    minutes and seconds, convert back to themselves. *)
Example dms_round_trip :
  dms_to_dd (VTuple [Num (48 # 1); Num (51 # 1); Num (3024 # 100)]) (VText "N")
  = Ok (Fin (48858400 # 1000000))
  /\ float_str (Fin (48858400 # 1000000)) = "48.8584"
  /\ dms_to_dd (VTuple [Num (2 # 1); Num (17 # 1); Num (402 # 10)]) (VText "E")
     = Ok (Fin (2294500 # 1000000))
  /\ float_str (Fin (2294500 # 1000000)) = "2.2945".
Proof. repeat split. Qed.

(** ** GPS metadata *)

(** The GPS directory of [photo] has no hemisphere reference, and its
    coordinates are written to the fields all the same, read as north
    and east. *)
Lemma missing_reference_still_populates :
  dict_get (fill_gps gps_without_refs []) (GName "GPSLatitudeRef") = None
  /\ dict_get (fill_gps gps_without_refs []) (GName "GPSLongitudeRef") = None
  /\ ShadowDetectiveApp._try_populate_gps
       (stub_world (Ok photo) (Some "image/jpeg") (Ok northeast))
       "photo.jpg" ShadowDetectiveApp.__init__
     = (ShadowDetectiveApp.mk None None "" "48.858333" "2.294444"
          DEFAULT_PROMPT true false false "",
        Ok tt).
Proof. repeat split. Qed.

(** Close a case in which the image is not readable: the hypothesis
    that it is contradicts what the case analysis found. *)
Ltac unreadable :=
  let H1 := fresh in let H2 := fresh in let H3 := fresh in
  let H4 := fresh in let H5 := fresh in let H6 := fresh in
  let H7 := fresh in
  intros ? ? (? & ? & ? & ? & ? & H1 & H2 & H3 & H4 & H5 & H6 & H7);
  exfalso;
  repeat first
    [ congruence
    | match goal with
      | E : ?x = _, H : ?x = _ |- _ => rewrite E in H
      | H : Ok _ = Ok _ |- _ => injection H as <-
      end
    | progress cbn in * ];
  fail.

(** The handler of [_try_populate_gps] absorbs whatever the body raises. *)
Lemma try_populate_gps_absorbs
    (w : World) (image_path : string) (self : ShadowDetectiveApp.t) :
  snd (ShadowDetectiveApp._try_populate_gps w image_path self) = Ok tt
  /\ (snd (ShadowDetectiveApp.populate_gps w image_path self) <> Ok tt ->
      fst (ShadowDetectiveApp._try_populate_gps w image_path self)
      = fst (ShadowDetectiveApp.populate_gps w image_path self)).
Proof.
  unfold ShadowDetectiveApp._try_populate_gps, try_except.
  destruct (ShadowDetectiveApp.populate_gps w image_path self)
    as [s' [[]|e]]; split; reflexivity.
Qed.

(** C3 (amended): [_try_populate_gps] never raises.  When the image
    carries usable coordinates it writes both fields; in every other case
    (the file does not open, there is no metadata, no GPS directory, no
    GPSLatitude or GPSLongitude entry, or a value that does not convert)
    the window is left exactly as it was.  A missing hemisphere reference
    is not such a case: it is read as "N" or "E". *)
Theorem try_populate_gps_best_effort
    (w : World) (image_path : string) (self : ShadowDetectiveApp.t) :
  snd (ShadowDetectiveApp._try_populate_gps w image_path self) = Ok tt
  /\ (forall lat lon,
        gps_readable w image_path lat lon ->
        fst (ShadowDetectiveApp._try_populate_gps w image_path self)
        = ShadowDetectiveApp.set_lon_input (float_str lon)
            (ShadowDetectiveApp.set_lat_input (float_str lat) self))
  /\ ((forall lat lon, ~ gps_readable w image_path lat lon) ->
      fst (ShadowDetectiveApp._try_populate_gps w image_path self) = self).
Proof.
  unfold ShadowDetectiveApp._try_populate_gps, try_except,
    ShadowDetectiveApp.populate_gps, bind, lift, modify, ret, gps_readable.
  destruct (Image_open w image_path) as [img|e] eqn:E1;
    [|split; [reflexivity | split; [unreadable | reflexivity]]].
  destruct (_getexif img) as [[[|entry rest]|]|e] eqn:E2;
    try (split; [reflexivity | split; [unreadable | reflexivity]]).
  destruct (collect_gps (entry :: rest) []) as [[|g gps_info]|e] eqn:E3;
    try (split; [reflexivity | split; [unreadable | reflexivity]]).
  destruct (getitem (g :: gps_info) "GPSLatitude") as [dlat|e] eqn:E4;
    cbn [rbind];
    [|split; [reflexivity | split; [unreadable | reflexivity]]].
  destruct (dms_to_dd dlat _) as [lat|e] eqn:E5;
    [|split; [reflexivity | split; [unreadable | reflexivity]]].
  destruct (getitem (g :: gps_info) "GPSLongitude") as [dlon|e] eqn:E6;
    cbn [rbind];
    [|split; [reflexivity | split; [unreadable | reflexivity]]].
  destruct (dms_to_dd dlon _) as [lon|e] eqn:E7;
    [|split; [reflexivity | split; [unreadable | reflexivity]]].
  split; [reflexivity | split].
  - intros lat' lon' (img' & ex' & gi' & dlat' & dlon'
                      & H1 & H2 & H3 & H4 & H5 & H6 & H7).
    injection H1 as <-. rewrite E2 in H2; injection H2 as <-.
    rewrite E3 in H3; injection H3 as <-.
    rewrite E4 in H4; injection H4 as <-.
    rewrite E6 in H5; injection H5 as <-.
    rewrite E5 in H6; injection H6 as <-.
    rewrite E7 in H7; injection H7 as <-.
    reflexivity.
  - intros Hno. exfalso. apply (Hno lat lon).
    exists img, (entry :: rest), (g :: gps_info), dlat, dlon.
    repeat (split; [first [reflexivity | assumption]|]). assumption.
Qed.

Lemma try_populate_gps_best_effort_witness :
  ShadowDetectiveApp._try_populate_gps
    (stub_world (Raise (mkExc "UnidentifiedImageError"
                          "cannot identify image file"))
       None (Ok northeast))
    "notes.txt" ShadowDetectiveApp.__init__
  = (ShadowDetectiveApp.__init__, Ok tt).
Proof.
  pose proof (@try_populate_gps_best_effort
                (stub_world (Raise (mkExc "UnidentifiedImageError"
                                      "cannot identify image file"))
                   None (Ok northeast))
                "notes.txt" ShadowDetectiveApp.__init__) as [Hok [_ Hsame]].
  rewrite (surjective_pairing (ShadowDetectiveApp._try_populate_gps _ _ _)).
  rewrite Hok, Hsame; [reflexivity|].
  intros lat lon (img & ex & gi & dlat & dlon & H & _). discriminate H.
Defined.

(** [select_image] does not raise either, whatever the file holds. *)
Lemma select_image_never_raises
    (w : World) (file_name : string) (self : ShadowDetectiveApp.t) :
  snd (ShadowDetectiveApp.select_image w file_name self) = Ok tt.
Proof.
  unfold ShadowDetectiveApp.select_image.
  destruct (str_empty file_name); [reflexivity|].
  unfold bind, modify.
  apply (proj1 (try_populate_gps_absorbs w file_name _)).
Qed.

(** ** The worker's run *)

(** [run] emits one signal and calls the provider at most once: not at
    all when the image cannot be encoded, in which case the exception's
    text goes out on the error signal; otherwise once, with the key, the
    model name, the resolved prompt, the data URI and the token budget. *)
Lemma run_calls_provider_once (w : World) (self : APIWorker.t) :
  match APIWorker.encode_image w (APIWorker.image_path self) with
  | Raise e => APIWorker.run w self = (error (exc_msg e), [])
  | Ok (base64_image, mime_type) =>
      snd (APIWorker.run w self)
      = [(APIWorker.api_key self,
          mkRequest "gpt-4o"
            (APIWorker.prompt_text (APIWorker.prompt_template self)
               (APIWorker.lat self) (APIWorker.lon self))
            ("data:" ++ mime_type ++ ";base64," ++ base64_image) 1000)]
      /\ (forall result_text,
            chat_completions_create w (APIWorker.api_key self)
              (mkRequest "gpt-4o"
                 (APIWorker.prompt_text (APIWorker.prompt_template self)
                    (APIWorker.lat self) (APIWorker.lon self))
                 ("data:" ++ mime_type ++ ";base64," ++ base64_image) 1000)
            = Ok result_text ->
            fst (APIWorker.run w self) = finished result_text)
  end.
Proof.
  unfold APIWorker.run.
  destruct (APIWorker.encode_image w (APIWorker.image_path self))
    as [[base64_image mime_type]|e]; [|reflexivity].
  destruct (chat_completions_create w _ _) as [text|e]; split;
    try reflexivity; intros r H; now inversion H.
Qed.

(** ** Placeholders and coordinate texts *)

Lemma prefix_foreign (q s : string) (c : ascii) :
  char_in c q = false -> q <> "" -> prefix q (String c s) = false.
Proof.
  destruct q as [|q0 q']; intros H Hq; [now elim Hq|].
  rewrite prefix_cons. simpl in H. apply orb_false_iff in H as [H _].
  rewrite Ascii.eqb_sym, H. reflexivity.
Qed.

Lemma no_char_of_tail (q0 : ascii) (q s : string) :
  no_char_of (String q0 q) s = true -> no_char_of q s = true.
Proof.
  induction s as [|c s IH]; simpl; [reflexivity|].
  intros H. apply andb_true_iff in H as [Hc Hs].
  rewrite (IH Hs), andb_true_r.
  apply negb_true_iff in Hc. apply orb_false_iff in Hc as [_ Hc].
  now rewrite Hc.
Qed.

(** A text none of whose characters occurs in [q] hides no occurrence
    of [q] and takes part in none. *)
Lemma str_contains_app_foreign (q m o : string) :
  no_char_of q m = true -> q <> "" ->
  str_contains q (m ++ o) = str_contains q o.
Proof.
  intros Hm Hq. induction m as [|c m IH]; [reflexivity|].
  simpl in Hm. apply andb_true_iff in Hm as [Hc Hm].
  apply negb_true_iff in Hc.
  change (String c m ++ o) with (String c (m ++ o)).
  rewrite str_contains_cons, (@prefix_foreign q (m ++ o) c Hc Hq), (IH Hm). reflexivity.
Qed.

Section ReplaceForeign.

Variables p new : string.
Hypothesis new_nonempty : new <> "".

(** Where the result of a replacement starts with [q], so did the text,
    as long as the replacement shares no character with [q]. *)
Lemma prefix_replace_scan (s : string) : forall q,
  no_char_of q new = true ->
  prefix q (replace_scan p new s 0) = true -> prefix q s = true.
Proof.
  induction s as [|d t IH]; intros q Hq H; [exact H|].
  destruct q as [|e q']; [reflexivity|].
  cbn [replace_scan] in H.
  destruct (prefix p (String d t)).
  - exfalso. destruct new as [|n0 n'] eqn:En; [now elim new_nonempty|].
    change (String n0 n' ++ replace_scan p (String n0 n') t (String.length p - 1))
      with (String n0 (n' ++ replace_scan p (String n0 n') t (String.length p - 1)))
      in H.
    simpl in Hq. apply andb_true_iff in Hq as [Hc _].
    apply negb_true_iff in Hc.
    rewrite prefix_foreign in H; [discriminate | exact Hc | discriminate].
  - rewrite prefix_cons in *. apply andb_true_iff in H as [He H].
    rewrite He. apply IH; [|exact H]. now apply no_char_of_tail in Hq.
Qed.

(** Replacing every [p] by a text that shares no character with [p]
    leaves no [p] behind. *)
Lemma replace_scan_leaves_none (s : string) : forall k,
  no_char_of p new = true -> p <> "" ->
  str_contains p (replace_scan p new s k) = false.
Proof.
  induction s as [|c s IH]; intros k Hp Hne.
  - destruct p; [now elim Hne | reflexivity].
  - destruct k as [|k]; cbn [replace_scan]; [|now apply IH].
    destruct (prefix p (String c s)) eqn:E.
    + rewrite str_contains_app_foreign by assumption. now apply IH.
    + rewrite str_contains_cons, (IH 0%nat Hp Hne), orb_false_r.
      destruct (prefix p (String c (replace_scan p new s 0))) eqn:E'; [|reflexivity].
      destruct p as [|p0 p'] eqn:Ep; [now elim Hne|].
      rewrite prefix_cons in E, E'. apply andb_true_iff in E' as [Hc H'].
      rewrite Hc in E. cbn [andb] in E.
      rewrite <- Ep in H'.
      apply prefix_replace_scan in H'; [congruence|].
      now apply no_char_of_tail in Hp.
Qed.

(** It creates no occurrence of another token either. *)
Lemma replace_scan_creates_none (q s : string) : forall k,
  no_char_of q new = true ->
  str_contains q (replace_scan p new s k) = true -> str_contains q s = true.
Proof.
  destruct q as [|q0 q']; [intros; destruct s; reflexivity|].
  induction s as [|c s IH]; intros k Hq H; [exact H|].
  rewrite str_contains_cons.
  destruct k as [|k]; cbn [replace_scan] in H.
  - destruct (prefix p (String c s)).
    + rewrite str_contains_app_foreign in H by (assumption || discriminate).
      rewrite (IH _ Hq H). apply orb_true_r.
    + rewrite str_contains_cons in H. apply orb_true_iff in H as [H|H].
      * rewrite prefix_cons in *. apply andb_true_iff in H as [Hc H].
        rewrite Hc. apply prefix_replace_scan in H;
          [rewrite H; reflexivity | now apply no_char_of_tail in Hq].
      * rewrite (IH _ Hq H). apply orb_true_r.
  - rewrite (IH _ Hq H). apply orb_true_r.
Qed.

End ReplaceForeign.

Lemma no_char_of_weaken (q q' s : string) :
  (forall c, char_in c q' = true -> char_in c q = true) ->
  no_char_of q s = true -> no_char_of q' s = true.
Proof.
  intros Hsub. induction s as [|c s IH]; simpl; [reflexivity|].
  intros H. apply andb_true_iff in H as [Hc Hs].
  rewrite (IH Hs), andb_true_r.
  apply negb_true_iff in Hc. apply negb_true_iff.
  destruct (char_in c q') eqn:E; [|reflexivity].
  apply Hsub in E. congruence.
Qed.

Lemma no_char_of_app (q a b : string) :
  no_char_of q (a ++ b) = no_char_of q a && no_char_of q b.
Proof.
  induction a as [|c a IH]; simpl; [reflexivity|].
  now rewrite IH, andb_assoc.
Qed.

Lemma plain_coordinate_facts (s : string) :
  plain_coordinate s = true ->
  s <> "" /\ no_char_of "{lat}" s = true /\ no_char_of "{lon}" s = true.
Proof.
  unfold plain_coordinate. intros H. apply andb_true_iff in H as [Hne Hs].
  split; [intros ->; discriminate|].
  split; (eapply no_char_of_weaken; [|exact Hs]); intros c; simpl;
    repeat match goal with
           | |- context [Ascii.eqb c ?x] => destruct (Ascii.eqb c x)
           end; auto.
Qed.

(** With coordinates that are not empty and use none of the characters
    of the placeholders (as every number does), no placeholder is left
    in the resolved prompt, whatever the template, and resolving it once
    more changes nothing. *)
Theorem plain_coordinates_leave_no_placeholder (template lat lon : string) :
  plain_coordinate lat = true -> plain_coordinate lon = true ->
  let resolved := APIWorker.prompt_text template lat lon in
  str_contains "{lat}" resolved = false
  /\ str_contains "{lon}" resolved = false
  /\ APIWorker.prompt_text resolved lat lon = resolved.
Proof.
  intros Hlat Hlon resolved.
  destruct (@plain_coordinate_facts lat Hlat) as (Nlat & Llat & _).
  destruct (@plain_coordinate_facts lon Hlon) as (Nlon & Llon & Lon).
  assert (Hlo : str_contains "{lon}" resolved = false).
  { unfold resolved, APIWorker.prompt_text, str_replace.
    apply replace_scan_leaves_none; [exact Nlon | exact Lon | discriminate]. }
  assert (Hla : str_contains "{lat}" resolved = false).
  { destruct (str_contains "{lat}" resolved) eqn:E; [|reflexivity].
    unfold resolved, APIWorker.prompt_text in E. unfold str_replace at 1 in E.
    apply replace_scan_creates_none in E; [|exact Nlon | exact Llon].
    unfold str_replace in E.
    rewrite replace_scan_leaves_none in E;
      [discriminate | exact Nlat | exact Llat | discriminate]. }
  split; [exact Hla | split; [exact Hlo |]].
  unfold APIWorker.prompt_text at 1.
  assert (E : str_replace resolved "{lat}" lat = resolved)
    by now apply str_replace_absent.
  rewrite E. now apply str_replace_absent.
Qed.

Lemma plain_coordinates_leave_no_placeholder_witness :
  str_contains "{lat}" (APIWorker.prompt_text "{{lat}} {lo{lon}n} {lat" "48.8584" "-2.2945")
  = false
  /\ APIWorker.prompt_text "{{lat}} {lo{lon}n} {lat" "48.8584" "-2.2945"
     = "{48.8584} {lo-2.2945n} {lat".
Proof.
  split; [|reflexivity].
  exact (proj1 (@plain_coordinates_leave_no_placeholder
                  "{{lat}} {lo{lon}n} {lat" "48.8584" "-2.2945" eq_refl eq_refl)).
Defined.

(** ** Templates with both placeholders *)

Lemma append_empty_r (s : string) : s ++ "" = s.
Proof. induction s as [|c s IH]; simpl; [reflexivity | now rewrite IH]. Qed.

(** A text without an opening brace holds no placeholder, and takes part
    in none. *)
Lemma str_contains_brace_app (q x y : string) :
  no_char_of "{" x = true ->
  str_contains (String "{" q) (x ++ y) = str_contains (String "{" q) y.
Proof.
  intros Hx. induction x as [|c x IH]; [reflexivity|].
  simpl in Hx. apply andb_true_iff in Hx as [Hc Hx].
  change (String c x ++ y) with (String c (x ++ y)).
  rewrite str_contains_cons, prefix_cons, (IH Hx).
  rewrite orb_false_r in Hc. apply negb_true_iff in Hc.
  now rewrite Ascii.eqb_sym, Hc.
Qed.

Lemma str_contains_brace_free (q x : string) :
  no_char_of "{" x = true -> str_contains (String "{" q) x = false.
Proof.
  intros Hx. rewrite <- (append_empty_r x).
  now rewrite str_contains_brace_app.
Qed.

(** A template with one [{lat}] and one [{lon}] and no other opening
    brace resolves to the template with the two coordinates in place,
    for a latitude without an opening brace and any longitude. *)
Theorem two_placeholder_template_resolved (a b c lat lon : string) :
  no_char_of "{" a = true -> no_char_of "{" b = true ->
  no_char_of "{" c = true -> no_char_of "{" lat = true ->
  APIWorker.prompt_text (a ++ "{lat}" ++ b ++ "{lon}" ++ c) lat lon
  = a ++ lat ++ b ++ lon ++ c.
Proof.
  intros Ha Hb Hc Hlat. unfold APIWorker.prompt_text.
  rewrite str_replace_lat_app.
  assert (E1 : str_replace a "{lat}" lat = a)
    by (apply str_replace_absent; now apply str_contains_brace_free).
  assert (E2 : str_replace (b ++ "{lon}" ++ c) "{lat}" lat = b ++ "{lon}" ++ c).
  { apply str_replace_absent. rewrite str_contains_brace_app by exact Hb.
    change ("{lon}" ++ c) with (String "{" ("lon}" ++ c)).
    rewrite str_contains_cons, str_contains_brace_app by reflexivity.
    rewrite str_contains_brace_free by exact Hc.
    cbn [append]. rewrite !prefix_cons. reflexivity. }
  rewrite E1, E2.
  replace (a ++ lat ++ b ++ "{lon}" ++ c)
    with ((a ++ lat ++ b) ++ "{lon}" ++ c) by now rewrite !append_assoc3.
  rewrite str_replace_lon_app.
  assert (E3 : str_replace (a ++ lat ++ b) "{lon}" lon = a ++ lat ++ b).
  { apply str_replace_absent, str_contains_brace_free.
    now rewrite !no_char_of_app, Ha, Hlat, Hb. }
  assert (E4 : str_replace c "{lon}" lon = c)
    by (apply str_replace_absent; now apply str_contains_brace_free).
  rewrite E3, E4. now rewrite !append_assoc3.
Qed.

Lemma two_placeholder_template_resolved_witness :
  APIWorker.prompt_text DEFAULT_PROMPT "48.8584" "2.2945"
  = "Based on the length and direction of the shadows, "
    ++ "the architectural landmarks, and the known latitude/longitude "
    ++ "(48.8584, 2.2945), calculate the approximate solar angle "
    ++ "and time of day. Walk me through your reasoning.".
Proof.
  exact (@two_placeholder_template_resolved
           ("Based on the length and direction of the shadows, "
            ++ "the architectural landmarks, and the known latitude/longitude (")
           ", "
           "), calculate the approximate solar angle and time of day. Walk me through your reasoning."
           "48.8584" "2.2945" eq_refl eq_refl eq_refl eq_refl).
Defined.

(** ** Stripping *)

Lemma rstrip_idempotent (s : string) : rstrip (rstrip s) = rstrip s.
Proof.
  induction s as [|c s IH]; [reflexivity|].
  cbn [rstrip]. destruct (rstrip s) as [|d r] eqn:E.
  - destruct (isspace c) eqn:Ec; [reflexivity|].
    cbn [rstrip]. now rewrite Ec.
  - cbn [rstrip] in *. now rewrite IH.
Qed.

Lemma lstrip_rstrip_lstrip (s : string) :
  lstrip (rstrip (lstrip s)) = rstrip (lstrip s).
Proof.
  induction s as [|c s IH]; [reflexivity|].
  cbn [lstrip]. destruct (isspace c) eqn:Ec; [exact IH|].
  cbn [rstrip]. destruct (rstrip s); rewrite ?Ec; cbn [lstrip]; now rewrite Ec.
Qed.

(** [strip] is idempotent. *)
Lemma str_strip_idempotent (s : string) : str_strip (str_strip s) = str_strip s.
Proof.
  unfold str_strip. now rewrite lstrip_rstrip_lstrip, rstrip_idempotent.
Qed.

(** ** One submission, from the click to the end of the run *)

Lemma submission_accepted
    (w : World) (self : ShadowDetectiveApp.t) (path : string) :
  submittable self path ->
  ShadowDetectiveApp.submission w self
  = match APIWorker.run w (worker_of self path) with
    | (finished result_text, calls) =>
        (window_after self path true result_text,
         [Start (worker_of self path)], calls)
    | (error error_msg, calls) =>
        (window_after self path false "",
         [Start (worker_of self path);
          Critical "API Error"
            ("An error occurred:" ++ newline
             ++ ShadowDetectiveApp.user_msg error_msg)],
         calls)
    end.
Proof.
  intros (Hi & Hp & Hk & Hla & Hlo & Hpr).
  unfold ShadowDetectiveApp.submission.
  rewrite (@run_analysis_accepts self path Hi Hp Hk Hla Hlo Hpr).
  cbn [ShadowDetectiveApp.started]. fold (worker_of self path).
  destruct (APIWorker.run w (worker_of self path)) as [[text|msg] calls];
    reflexivity.
Qed.

(** A run that succeeds: the answer is in the result box, saving is
    enabled, the button is re-armed, no box was shown, and the provider
    was called once, with the stripped key and the resolved prompt. *)
Theorem accepted_run_success
    (w : World) (self : ShadowDetectiveApp.t)
    (path base64_image mime_type result_text : string) :
  submittable self path ->
  APIWorker.encode_image w path = Ok (base64_image, mime_type) ->
  chat_completions_create w (str_strip (ShadowDetectiveApp.api_input self))
    (request_of (worker_of self path) base64_image mime_type)
  = Ok result_text ->
  ShadowDetectiveApp.submission w self
  = (window_after self path true result_text,
     [Start (worker_of self path)],
     [(str_strip (ShadowDetectiveApp.api_input self),
       request_of (worker_of self path) base64_image mime_type)]).
Proof.
  intros Hs He Hc. rewrite (submission_accepted w Hs).
  unfold APIWorker.run. cbn [worker_of APIWorker.__init__ APIWorker.image_path
    APIWorker.api_key APIWorker.prompt_template APIWorker.lat APIWorker.lon].
  rewrite He. unfold request_of in Hc.
  cbn [worker_of APIWorker.__init__ APIWorker.prompt_template APIWorker.lat
         APIWorker.lon] in Hc.
  rewrite Hc. reflexivity.
Qed.

(** An image that cannot be encoded: the provider is not called, the
    exception's text is classified and shown in one error box, the result
    box is empty, saving stays disabled and the button is re-armed. *)
Theorem encoding_failure_reported_without_call
    (w : World) (self : ShadowDetectiveApp.t) (path : string) (e : Exception) :
  submittable self path ->
  APIWorker.encode_image w path = Raise e ->
  ShadowDetectiveApp.submission w self
  = (window_after self path false "",
     [Start (worker_of self path);
      Critical "API Error"
        ("An error occurred:" ++ newline
         ++ ShadowDetectiveApp.user_msg (exc_msg e))],
     []).
Proof.
  intros Hs He. rewrite (submission_accepted w Hs).
  unfold APIWorker.run. cbn [worker_of APIWorker.__init__ APIWorker.image_path].
  rewrite He. reflexivity.
Qed.

(** A provider call that fails is made once and not repeated: its text is
    classified and shown, nothing is put in the result box. *)
Theorem provider_failure_reported_once
    (w : World) (self : ShadowDetectiveApp.t)
    (path base64_image mime_type : string) (e : Exception) :
  submittable self path ->
  APIWorker.encode_image w path = Ok (base64_image, mime_type) ->
  chat_completions_create w (str_strip (ShadowDetectiveApp.api_input self))
    (request_of (worker_of self path) base64_image mime_type)
  = Raise e ->
  ShadowDetectiveApp.submission w self
  = (window_after self path false "",
     [Start (worker_of self path);
      Critical "API Error"
        ("An error occurred:" ++ newline
         ++ ShadowDetectiveApp.user_msg (exc_msg e))],
     [(str_strip (ShadowDetectiveApp.api_input self),
       request_of (worker_of self path) base64_image mime_type)]).
Proof.
  intros Hs He Hc. rewrite (submission_accepted w Hs).
  unfold APIWorker.run. cbn [worker_of APIWorker.__init__ APIWorker.image_path
    APIWorker.api_key APIWorker.prompt_template APIWorker.lat APIWorker.lon].
  rewrite He. unfold request_of in Hc.
  cbn [worker_of APIWorker.__init__ APIWorker.prompt_template APIWorker.lat
         APIWorker.lon] in Hc.
  rewrite Hc. reflexivity.
Qed.

(** However a click on the analysis button ends (rejected, answered or
    failed), a window that was idle is idle again afterwards, and what
    the user selected and typed is as it was. *)
Theorem submission_returns_to_idle (w : World) (self : ShadowDetectiveApp.t) :
  ShadowDetectiveApp.btn_analyze_enabled self = true ->
  ShadowDetectiveApp.progress_bar_visible self = false ->
  let after := fst (fst (ShadowDetectiveApp.submission w self)) in
  ShadowDetectiveApp.btn_analyze_enabled after = true
  /\ ShadowDetectiveApp.progress_bar_visible after = false
  /\ ShadowDetectiveApp.image_path after = ShadowDetectiveApp.image_path self
  /\ ShadowDetectiveApp.api_input after = ShadowDetectiveApp.api_input self
  /\ ShadowDetectiveApp.lat_input after = ShadowDetectiveApp.lat_input self
  /\ ShadowDetectiveApp.lon_input after = ShadowDetectiveApp.lon_input self
  /\ ShadowDetectiveApp.prompt_edit after = ShadowDetectiveApp.prompt_edit self.
Proof.
  intros Hb Hp after. subst after.
  destruct (run_analysis_cases self)
    as [[text E] | (path & self' & Hi & Hpa & Hk & Hla & Hlo & Hpr & _ & _)].
  - unfold ShadowDetectiveApp.submission. rewrite E.
    cbn. now rewrite Hb, Hp.
  - rewrite (@submission_accepted w self path)
      by (repeat split; assumption).
    destruct (APIWorker.run w (worker_of self path)) as [[text|msg] calls];
      cbn; rewrite Hi; repeat split.
Qed.

Lemma submission_returns_to_idle_witness :
  ShadowDetectiveApp.btn_analyze_enabled
    (fst (fst (ShadowDetectiveApp.submission
                 (stub_world (Ok gray_alpha) None (Ok northeast))
                 (filled_app DEFAULT_PROMPT))))
  = true.
Proof.
  exact (proj1 (@submission_returns_to_idle
                  (stub_world (Ok gray_alpha) None (Ok northeast))
                  (filled_app DEFAULT_PROMPT) eq_refl eq_refl)).
Defined.

(** Failures are classified by their text alone, local ones included: an
    image that cannot be encoded, with "401" in the exception's text (in
    the file name it quotes, say), is reported as an authentication
    failure although the provider was never called. *)
Theorem local_failure_reported_as_authentication
    (w : World) (self : ShadowDetectiveApp.t) (path : string) (e : Exception) :
  submittable self path ->
  APIWorker.encode_image w path = Raise e ->
  str_contains "401" (exc_msg e) = true ->
  snd (ShadowDetectiveApp.submission w self) = []
  /\ snd (fst (ShadowDetectiveApp.submission w self))
     = [Start (worker_of self path);
        Critical "API Error"
          ("An error occurred:" ++ newline
           ++ "Authentication failed. Please check your OpenAI API key.")].
Proof.
  intros Hs He H401. rewrite (submission_accepted w Hs).
  unfold APIWorker.run. cbn [worker_of APIWorker.__init__ APIWorker.image_path].
  rewrite He. cbn [fst snd]. split; [reflexivity|].
  unfold ShadowDetectiveApp.user_msg. rewrite H401. reflexivity.
Qed.

(** The fields handed to the worker are trimmed and not empty: stripping
    any of them again changes nothing. *)
Theorem worker_fields_trimmed
    (self : ShadowDetectiveApp.t) (worker : APIWorker.t) :
  ShadowDetectiveApp.started (snd (ShadowDetectiveApp.run_analysis self))
  = Some worker ->
  (str_strip (APIWorker.api_key worker) = APIWorker.api_key worker
   /\ APIWorker.api_key worker <> "")
  /\ (str_strip (APIWorker.lat worker) = APIWorker.lat worker
      /\ APIWorker.lat worker <> "")
  /\ (str_strip (APIWorker.lon worker) = APIWorker.lon worker
      /\ APIWorker.lon worker <> "")
  /\ (str_strip (APIWorker.prompt_template worker)
      = APIWorker.prompt_template worker
      /\ APIWorker.prompt_template worker <> "")
  /\ ShadowDetectiveApp.image_path self = Some (APIWorker.image_path worker)
  /\ APIWorker.image_path worker <> "".
Proof.
  intros H.
  destruct (run_analysis_cases self)
    as [[text E] | (path & self' & Hi & Hpa & Hk & Hla & Hlo & Hpr & _ & E)];
    rewrite E in H; cbn in H; [discriminate|].
  injection H as <-.
  cbn [APIWorker.__init__ APIWorker.api_key APIWorker.lat APIWorker.lon
       APIWorker.prompt_template APIWorker.image_path].
  rewrite !str_strip_idempotent. repeat split; assumption.
Qed.

Lemma worker_fields_trimmed_witness :
  str_strip "sk-test" = "sk-test".
Proof.
  exact (proj1 (proj1 (@worker_fields_trimmed (filled_app DEFAULT_PROMPT)
                         (APIWorker.__init__ "sk-test" "photo.jpg" "48.8584"
                            "2.2945" DEFAULT_PROMPT)
                         eq_refl))).
Defined.

(** Classifying a message that was already classified changes nothing:
    no hint carries a marker of a class tried before its own. *)
Theorem user_msg_idempotent (error_msg : string) :
  ShadowDetectiveApp.user_msg (ShadowDetectiveApp.user_msg error_msg)
  = ShadowDetectiveApp.user_msg error_msg.
Proof.
  assert (H : ShadowDetectiveApp.user_msg error_msg
              = "Authentication failed. Please check your OpenAI API key."
              \/ ShadowDetectiveApp.user_msg error_msg
                 = "Rate limit or quota exceeded. Wait a moment or check your OpenAI billing."
              \/ ShadowDetectiveApp.user_msg error_msg
                 = "Network error. Check your internet connection and try again."
              \/ ShadowDetectiveApp.user_msg error_msg = error_msg).
  { unfold ShadowDetectiveApp.user_msg.
    destruct (str_contains "401" error_msg || _ || _); [now left|].
    destruct (str_contains "429" error_msg || _); [now right; left|].
    destruct (str_contains "Connection" error_msg || _ || _);
      [now right; right; left | now right; right; right]. }
  destruct H as [H|[H|[H|H]]]; rewrite H; try reflexivity. exact H.
Qed.

(** ** Report export *)

Lemma str_contains_app_r (x a b : string) :
  str_contains x b = true -> str_contains x (a ++ b) = true.
Proof.
  intros H. induction a as [|c a IH]; [exact H|].
  change (String c a ++ b) with (String c (a ++ b)).
  rewrite str_contains_cons, IH. apply orb_true_r.
Qed.

Lemma str_contains_app_l (x b : string) : str_contains x (x ++ b) = true.
Proof.
  destruct x as [|c x]; [destruct b; reflexivity|].
  change (String c x ++ b) with (String c (x ++ b)).
  rewrite str_contains_cons.
  change (String c (x ++ b)) with (String c x ++ b).
  now rewrite prefix_app.
Qed.

(** With a blank result box [save_report] only says so; with a cancelled
    file dialog it does nothing more.  Nothing is written in either
    case. *)
Theorem save_report_guards (d : Desktop) (self : ShadowDetectiveApp.t) :
  (has_nonspace (ShadowDetectiveApp.result_box self) = false ->
   save_report d self
   = [Shown (Warning "Nothing to Save" "Run an analysis first.")])
  /\ (has_nonspace (ShadowDetectiveApp.result_box self) = true ->
      getSaveFileName d (default_name d) = "" ->
      save_report d self = [AskFileName (default_name d)]).
Proof.
  unfold save_report. fold (default_name d). split.
  - intros H. apply str_strip_empty_iff in H. now rewrite H.
  - intros H Hc. apply str_strip_nonempty in H. rewrite H, Hc. reflexivity.
Qed.

Lemma save_report_guards_witness :
  save_report (mkDesktop (fun _ => "20261104_101500") (fun n => n)
                 (fun _ _ => Ok tt))
    (filled_app DEFAULT_PROMPT)
  = [Shown (Warning "Nothing to Save" "Run an analysis first.")].
Proof.
  apply (proj1 (save_report_guards
                  (mkDesktop (fun _ => "20261104_101500") (fun n => n)
                     (fun _ _ => Ok tt))
                  (filled_app DEFAULT_PROMPT))).
  reflexivity.
Defined.

(** With a result to save and a file chosen, [save_report] writes once,
    to that file, the report built from the stripped result; a write
    that raises is answered by an error box with the exception's text,
    a write that succeeds by a notice naming the file. *)
Theorem save_report_writes_once
    (d : Desktop) (self : ShadowDetectiveApp.t) (file_name : string) :
  has_nonspace (ShadowDetectiveApp.result_box self) = true ->
  getSaveFileName d (default_name d) = file_name -> file_name <> "" ->
  let report :=
    report_text self (now_strftime d "%Y-%m-%d %H:%M:%S")
      (str_strip (ShadowDetectiveApp.result_box self)) in
  written (save_report d self) = [(file_name, report)]
  /\ save_report d self
     = [AskFileName (default_name d); WriteText file_name report;
        match write_text d file_name report with
        | Ok _ =>
            Information "Saved" ("Report saved to:" ++ newline ++ file_name)
        | Raise e =>
            Shown (Critical "Save Error"
                     ("Could not save report:" ++ newline ++ exc_msg e))
        end].
Proof.
  intros H Hf Hne report. unfold save_report. fold (default_name d).
  apply str_strip_nonempty in H. rewrite H, Hf.
  destruct file_name as [|c f]; [now elim Hne|]. cbn [str_empty].
  fold report. destruct (write_text d (String c f) report); split; reflexivity.
Qed.

(** The report holds the timestamp, the stripped coordinates and prompt
    and the result text, each as it is. *)
Theorem report_holds_fields
    (self : ShadowDetectiveApp.t) (timestamp result_text : string) :
  str_contains timestamp (report_text self timestamp result_text) = true
  /\ str_contains (str_strip (ShadowDetectiveApp.lat_input self))
       (report_text self timestamp result_text) = true
  /\ str_contains (str_strip (ShadowDetectiveApp.lon_input self))
       (report_text self timestamp result_text) = true
  /\ str_contains (str_strip (ShadowDetectiveApp.prompt_edit self))
       (report_text self timestamp result_text) = true
  /\ str_contains result_text (report_text self timestamp result_text) = true.
Proof.
  unfold report_text.
  repeat split;
    repeat first [ apply str_contains_app_l
                 | apply str_contains_app_r ].
Qed.

Lemma filled_app_submittable :
  submittable (filled_app DEFAULT_PROMPT) "photo.jpg".
Proof. unfold submittable. repeat split; discriminate. Qed.

Lemma accepted_run_success_witness :
  ShadowDetectiveApp.submission
    (stub_world (Ok photo) (Some "image/jpeg") (Ok northeast))
    (filled_app DEFAULT_PROMPT)
  = (window_after (filled_app DEFAULT_PROMPT) "photo.jpg" true northeast,
     [Start (worker_of (filled_app DEFAULT_PROMPT) "photo.jpg")],
     [("sk-test",
       request_of (worker_of (filled_app DEFAULT_PROMPT) "photo.jpg")
         "<JPEG:RGB>" "image/jpeg")]).
Proof.
  exact (@accepted_run_success
           (stub_world (Ok photo) (Some "image/jpeg") (Ok northeast))
           (filled_app DEFAULT_PROMPT) "photo.jpg" "<JPEG:RGB>" "image/jpeg"
           northeast filled_app_submittable eq_refl eq_refl).
Defined.

Lemma encoding_failure_reported_without_call_witness :
  snd (ShadowDetectiveApp.submission
         (stub_world (Raise (mkExc "FileNotFoundError" "No such file"))
            (Some "image/jpeg") (Ok northeast))
         (filled_app DEFAULT_PROMPT))
  = [].
Proof.
  exact (f_equal snd
           (@encoding_failure_reported_without_call
              (stub_world (Raise (mkExc "FileNotFoundError" "No such file"))
                 (Some "image/jpeg") (Ok northeast))
              (filled_app DEFAULT_PROMPT) "photo.jpg"
              (mkExc "FileNotFoundError" "No such file")
              filled_app_submittable eq_refl)).
Defined.

Lemma provider_failure_reported_once_witness :
  snd (ShadowDetectiveApp.submission
         (stub_world (Ok photo) (Some "image/jpeg")
            (Raise (mkExc "RateLimitError" "Rate limit reached")))
         (filled_app DEFAULT_PROMPT))
  = [("sk-test",
      request_of (worker_of (filled_app DEFAULT_PROMPT) "photo.jpg")
        "<JPEG:RGB>" "image/jpeg")].
Proof.
  exact (f_equal snd
           (@provider_failure_reported_once
              (stub_world (Ok photo) (Some "image/jpeg")
                 (Raise (mkExc "RateLimitError" "Rate limit reached")))
              (filled_app DEFAULT_PROMPT) "photo.jpg" "<JPEG:RGB>" "image/jpeg"
              (mkExc "RateLimitError" "Rate limit reached")
              filled_app_submittable eq_refl eq_refl)).
Defined.

Lemma local_failure_reported_as_authentication_witness :
  snd (ShadowDetectiveApp.submission
         (stub_world
            (Raise (mkExc "UnidentifiedImageError"
                      "cannot identify image file 'IMG_4012.jpg'"))
            (Some "image/jpeg") (Ok northeast))
         (filled_app DEFAULT_PROMPT))
  = [].
Proof.
  exact (proj1
           (@local_failure_reported_as_authentication
              (stub_world
                 (Raise (mkExc "UnidentifiedImageError"
                           "cannot identify image file 'IMG_4012.jpg'"))
                 (Some "image/jpeg") (Ok northeast))
              (filled_app DEFAULT_PROMPT) "photo.jpg"
              (mkExc "UnidentifiedImageError"
                 "cannot identify image file 'IMG_4012.jpg'")
              filled_app_submittable eq_refl eq_refl)).
Defined.

Lemma save_report_writes_once_witness :
  written
    (save_report
       (mkDesktop (fun _ => "20240101_120000") (fun _ => "report.txt")
          (fun _ _ => Raise (mkExc "PermissionError" "Permission denied")))
       (window_after (filled_app DEFAULT_PROMPT) "photo.jpg" true northeast))
  = [("report.txt",
      report_text
        (window_after (filled_app DEFAULT_PROMPT) "photo.jpg" true northeast)
        "20240101_120000" northeast)].
Proof.
  refine (proj1
            (@save_report_writes_once
               (mkDesktop (fun _ => "20240101_120000") (fun _ => "report.txt")
                  (fun _ _ => Raise (mkExc "PermissionError" "Permission denied")))
               (window_after (filled_app DEFAULT_PROMPT) "photo.jpg" true
                  northeast)
               "report.txt" eq_refl eq_refl _)).
  discriminate.
Defined.

(** An answer of white space only: the run counts as a success and
    enables the save button, yet [save_report] then finds nothing to
    save. *)
Theorem blank_answer_cannot_be_saved
    (w : World) (d : Desktop) (self : ShadowDetectiveApp.t)
    (path base64_image mime_type result_text : string) :
  submittable self path ->
  APIWorker.encode_image w path = Ok (base64_image, mime_type) ->
  chat_completions_create w (str_strip (ShadowDetectiveApp.api_input self))
    (request_of (worker_of self path) base64_image mime_type)
  = Ok result_text ->
  has_nonspace result_text = false ->
  let after := fst (fst (ShadowDetectiveApp.submission w self)) in
  ShadowDetectiveApp.btn_save_report_enabled after = true
  /\ save_report d after
     = [Shown (Warning "Nothing to Save" "Run an analysis first.")].
Proof.
  intros Hs He Hc Hb after. subst after.
  rewrite (submission_accepted w Hs).
  unfold APIWorker.run. cbn [worker_of APIWorker.__init__ APIWorker.image_path
    APIWorker.api_key APIWorker.prompt_template APIWorker.lat APIWorker.lon].
  rewrite He. unfold request_of in Hc.
  cbn [worker_of APIWorker.__init__ APIWorker.prompt_template APIWorker.lat
         APIWorker.lon] in Hc.
  rewrite Hc. cbn [fst]. split; [reflexivity|].
  unfold save_report, window_after.
  cbn [ShadowDetectiveApp.result_box].
  apply str_strip_empty_iff in Hb. now rewrite Hb.
Qed.

Lemma blank_answer_cannot_be_saved_witness :
  ShadowDetectiveApp.btn_save_report_enabled
    (fst (fst (ShadowDetectiveApp.submission
                 (stub_world (Ok photo) (Some "image/jpeg") (Ok "  "))
                 (filled_app DEFAULT_PROMPT))))
  = true.
Proof.
  refine (proj1 (@blank_answer_cannot_be_saved
                   (stub_world (Ok photo) (Some "image/jpeg") (Ok "  "))
                   (mkDesktop (fun _ => "now") (fun n => n) (fun _ _ => Ok tt))
                   (filled_app DEFAULT_PROMPT)
                   "photo.jpg" "<JPEG:RGB>" "image/jpeg" "  "
                   _ eq_refl eq_refl eq_refl)).
  unfold submittable. repeat split; discriminate.
Defined.

(** The state [populate_gps] leaves: the window as it was, or with both
    coordinate fields set. *)
Lemma populate_gps_state (w : World) (image_path : string)
    (self : ShadowDetectiveApp.t) :
  fst (ShadowDetectiveApp.populate_gps w image_path self) = self
  \/ exists lat lon,
       fst (ShadowDetectiveApp.populate_gps w image_path self)
       = ShadowDetectiveApp.set_lon_input (float_str lon)
           (ShadowDetectiveApp.set_lat_input (float_str lat) self).
Proof.
  unfold ShadowDetectiveApp.populate_gps, bind, lift, ret, modify.
  destruct (Image_open w image_path) as [img|e]; [|now left].
  destruct (_getexif img) as [[[|kv exif_data]|]|e]; try now left.
  destruct (collect_gps (kv :: exif_data) []) as [[|g gps_info]|e];
    try now left.
  destruct (_ <- getitem (g :: gps_info) "GPSLatitude" ;; _)%py as [lat|e];
    [|now left].
  destruct (_ <- getitem (g :: gps_info) "GPSLongitude" ;; _)%py as [lon|e];
    [|now left].
  right. now exists lat, lon.
Qed.

(** [select_image] never raises.  With no file chosen the window is as
    it was; otherwise the chosen name becomes the image path.  Of the
    other fields only the two coordinates can change, and then both are
    overwritten together by the text of two floats. *)
Theorem select_image_frame
    (w : World) (file_name : string) (self : ShadowDetectiveApp.t) :
  let after := fst (ShadowDetectiveApp.select_image w file_name self) in
  snd (ShadowDetectiveApp.select_image w file_name self) = Ok tt
  /\ (if str_empty file_name then after = self
      else ShadowDetectiveApp.image_path after = Some file_name)
  /\ ShadowDetectiveApp.worker after = ShadowDetectiveApp.worker self
  /\ ShadowDetectiveApp.api_input after = ShadowDetectiveApp.api_input self
  /\ ShadowDetectiveApp.prompt_edit after = ShadowDetectiveApp.prompt_edit self
  /\ ShadowDetectiveApp.btn_analyze_enabled after
     = ShadowDetectiveApp.btn_analyze_enabled self
  /\ ShadowDetectiveApp.btn_save_report_enabled after
     = ShadowDetectiveApp.btn_save_report_enabled self
  /\ ShadowDetectiveApp.result_box after = ShadowDetectiveApp.result_box self
  /\ ((ShadowDetectiveApp.lat_input after = ShadowDetectiveApp.lat_input self
       /\ ShadowDetectiveApp.lon_input after
          = ShadowDetectiveApp.lon_input self)
      \/ exists lat lon,
           ShadowDetectiveApp.lat_input after = float_str lat
           /\ ShadowDetectiveApp.lon_input after = float_str lon).
Proof.
  intros after. subst after. unfold ShadowDetectiveApp.select_image.
  destruct (str_empty file_name).
  { cbn. repeat split. now left. }
  unfold bind, modify, ShadowDetectiveApp._try_populate_gps, try_except, ret.
  pose proof (populate_gps_state w file_name
                (ShadowDetectiveApp.set_image_path file_name self)) as H.
  destruct (ShadowDetectiveApp.populate_gps w file_name
              (ShadowDetectiveApp.set_image_path file_name self))
    as [s' [[]|e]]; cbn [fst snd] in *;
    (destruct H as [-> | (lat & lon & ->)]; cbn;
     [ repeat split; now left
     | repeat split; right; now exists lat, lon ]).
Qed.

(** ** Accuracy of the conversion to decimal degrees *)

Ltac compare_prop C :=
  match type of C with
  | _ = Eq => apply Qeq_alt in C
  | _ = Lt => apply Qlt_alt in C
  | _ = Gt => apply Qgt_alt in C
  end.


Lemma round_half_even_comp (x y : Q) :
  (x == y)%Q -> round_half_even x = round_half_even y.
Proof.
  intros H. unfold round_half_even.
  rewrite (Qfloor_comp _ _ H).
  assert (E : ((x - inject_Z (Qfloor y) ?= 1 # 2)
               = (y - inject_Z (Qfloor y) ?= 1 # 2))%Q).
  { apply Qcompare_comp; [rewrite H|]; reflexivity. }
  now rewrite E.
Qed.

Lemma round_half_even_Z (k : Z) : round_half_even (inject_Z k) = k.
Proof.
  unfold round_half_even. rewrite Qfloor_Z.
  assert (E : ((inject_Z k - inject_Z k ?= 1 # 2) = Lt)%Q).
  { apply (proj1 (Qlt_alt _ _)). lra. }
  now rewrite E.
Qed.

Lemma millionths_value (k : Z) :
  (k # 1000000 == inject_Z k / 1000000)%Q.
Proof. rewrite (Qmake_Qdiv k 1000000). reflexivity. Qed.

(** The value of [round6 (Fin q)] is the nearest millionth of [q]. *)
Lemma round6_value (q : Q) :
  exists v, float_value (round6 (Fin q)) = Some v
            /\ (v == inject_Z (round_half_even (q * 1000000)) / 1000000)%Q.
Proof.
  unfold round6.
  destruct (round_half_even (q * 1000000) =? 0)%Z eqn:E.
  - apply Z.eqb_eq in E. rewrite E.
    exists 0%Q. split; [destruct (Qlt_le_dec q 0); reflexivity | reflexivity].
  - eexists. split; [reflexivity | apply millionths_value].
Qed.





Lemma Qfloor_opp_cases (x : Q) :
  (Qfloor (- x) = (- Qfloor x)%Z /\ (x == inject_Z (Qfloor x))%Q)
  \/ Qfloor (- x) = (- Qfloor x - 1)%Z.
Proof.
  pose proof (Qfloor_le x) as A1. pose proof (Qlt_floor x) as A2.
  pose proof (Qfloor_le (- x)) as B1. pose proof (Qlt_floor (- x)) as B2.
  rewrite inject_Z_plus in A2, B2. change (inject_Z 1) with 1%Q in *.
  assert (U : (Qfloor x + Qfloor (- x) <= 0)%Z).
  { rewrite Zle_Qle, inject_Z_plus. change (inject_Z 0) with 0%Q. lra. }
  assert (L : (-2 < Qfloor x + Qfloor (- x))%Z).
  { rewrite Zlt_Qlt, inject_Z_plus. change (inject_Z (-2)) with (-2 # 1)%Q. lra. }
  destruct (Z.eq_dec (Qfloor x + Qfloor (- x)) 0) as [E|E].
  - left. split; [lia|].
    assert (E' : Qfloor (- x) = (- Qfloor x)%Z) by lia.
    rewrite E', inject_Z_opp in B1. lra.
  - right. lia.
Qed.

Lemma round_half_even_opp (x : Q) :
  round_half_even (- x) = (- round_half_even x)%Z.
Proof.
  destruct (Qfloor_opp_cases x) as [[E Hx] | E].
  - rewrite (round_half_even_comp Hx) at 1.
    assert (Hx' : (- x == inject_Z (- Qfloor x))%Q)
      by (rewrite inject_Z_opp; lra).
    rewrite (round_half_even_comp Hx'), !round_half_even_Z. reflexivity.
  - unfold round_half_even. rewrite E.
    assert (Ei : (inject_Z (- Qfloor x - 1) == - inject_Z (Qfloor x) - 1)%Q).
    { unfold Z.sub. rewrite inject_Z_plus, inject_Z_opp. reflexivity. }
    destruct (x - inject_Z (Qfloor x) ?= 1 # 2)%Q eqn:C1;
      destruct (- x - inject_Z (- Qfloor x - 1) ?= 1 # 2)%Q eqn:C2;
      compare_prop C1; compare_prop C2;
      rewrite Ei in C2; try lra; try lia.
    replace (- Qfloor x - 1)%Z with (- Z.succ (Qfloor x))%Z by lia.
    rewrite Z.even_opp, Z.even_succ, <- Z.negb_even.
    destruct (Z.even (Qfloor x)); cbn [negb]; lia.
Qed.

(** The same three numbers read with a southern or western reference
    give exactly the opposite of what they give with any other one:
    rounding to six places is symmetric about zero. *)
Theorem dms_to_dd_hemispheres_mirror
    (d m s : Q) (ref_sw ref_ne : exif_value) :
  ref_in_SW ref_sw = true -> ref_in_SW ref_ne = false ->
  exists r_sw r_ne v_sw v_ne,
    dms_to_dd (VTuple [Num d; Num m; Num s]) ref_sw = Ok r_sw
    /\ dms_to_dd (VTuple [Num d; Num m; Num s]) ref_ne = Ok r_ne
    /\ float_value r_sw = Some v_sw /\ float_value r_ne = Some v_ne
    /\ (v_sw == - v_ne)%Q.
Proof.
  intros Hsw Hne. cbn [dms_to_dd unpack3 map rbind float_of fadd fdiv].
  rewrite Hsw, Hne. set (dd := (d + m / 60 + s / 3600)%Q).
  destruct (round6_value dd) as (vn & Hvn & En).
  unfold fneg. destruct (Qeq_bool dd 0) eqn:E.
  - apply Qeq_bool_iff in E. exists NegZero, (round6 (Fin dd)), 0%Q, vn.
    repeat (split; [reflexivity || assumption|]).
    rewrite En.
    assert (Hz : (dd * 1000000 == inject_Z 0)%Q) by (rewrite E; reflexivity).
    rewrite (round_half_even_comp Hz), round_half_even_Z. reflexivity.
  - destruct (round6_value (- dd)) as (vs & Hvs & Es).
    exists (round6 (Fin (- dd))), (round6 (Fin dd)), vs, vn.
    repeat (split; [reflexivity || assumption|]).
    rewrite Es, En.
    assert (Ho : (- dd * 1000000 == - (dd * 1000000))%Q) by ring.
    rewrite (round_half_even_comp Ho), round_half_even_opp, inject_Z_opp.
    field.
Qed.

Lemma dms_to_dd_hemispheres_mirror_witness :
  exists r_sw r_ne v_sw v_ne,
    dms_to_dd (VTuple [Num 2; Num 17; Num 40]) (VText "W") = Ok r_sw
    /\ dms_to_dd (VTuple [Num 2; Num 17; Num 40]) (VText "E") = Ok r_ne
    /\ float_value r_sw = Some v_sw /\ float_value r_ne = Some v_ne
    /\ (v_sw == - v_ne)%Q.
Proof.
  exact (@dms_to_dd_hemispheres_mirror 2 17 40 (VText "W") (VText "E")
           eq_refl eq_refl).
Defined.


(** A rational with a zero denominator anywhere in the triple is not
    refused: the conversion returns a NaN, whose text is "nan". *)
Theorem zero_denominator_gives_nan (a b c : number) (ref : exif_value) :
  In NumNaN [a; b; c] ->
  dms_to_dd (VTuple [a; b; c]) ref = Ok NaN /\ float_str NaN = "nan".
Proof.
  intros H. split; [|reflexivity].
  cbn [dms_to_dd unpack3 map rbind].
  destruct a as [a|], b as [b|], c as [c|]; cbn in H;
    try (exfalso; intuition discriminate);
    cbn; destruct (ref_in_SW ref); reflexivity.
Qed.

Lemma zero_denominator_gives_nan_witness :
  dms_to_dd (VTuple [Num 48; NumNaN; Num 30]) (VText "N") = Ok NaN.
Proof.
  apply (proj1 (@zero_denominator_gives_nan (Num 48) NumNaN (Num 30)
                  (VText "N") (or_intror (or_introl eq_refl)))).
Defined.

(** ** The GPS directory *)

Lemma gps_key_eqb_eq (a b : gps_key) : gps_key_eqb a b = true <-> a = b.
Proof.
  destruct a as [x|x], b as [y|y]; cbn; split; intros H;
    try discriminate.
  - apply String.eqb_eq in H. now subst.
  - injection H as <-. apply String.eqb_refl.
  - apply Z.eqb_eq in H. now subst.
  - injection H as <-. apply Z.eqb_refl.
Qed.

Lemma dict_get_set {V} (d : list (gps_key * V)) (k k' : gps_key) (v : V) :
  dict_get (dict_set d k v) k' = if gps_key_eqb k k' then Some v else dict_get d k'.
Proof.
  induction d as [|[k0 v0] d IH]; cbn.
  - reflexivity.
  - destruct (gps_key_eqb k0 k) eqn:E0; cbn.
    + apply gps_key_eqb_eq in E0. subst k0.
      destruct (gps_key_eqb k k'); reflexivity.
    + destruct (gps_key_eqb k0 k') eqn:E1.
      * destruct (gps_key_eqb k k') eqn:E2; [|reflexivity].
        apply gps_key_eqb_eq in E1, E2. subst.
        rewrite (proj2 (gps_key_eqb_eq k' k') eq_refl) in E0. discriminate.
      * exact IH.
Qed.

Lemma table_get_In (t : list (Z * string)) (id : Z) (name : string) :
  table_get t id = Some name -> In (id, name) t.
Proof.
  induction t as [|[k n] t IH]; cbn; [discriminate|].
  destruct (k =? id)%Z eqn:E.
  - intros [= <-]. apply Z.eqb_eq in E. subst. now left.
  - intros H. right. now apply IH.
Qed.

Lemma In_snd_unique {A B} (t : list (A * B)) (a a' : A) (b : B) :
  NoDup (map snd t) -> In (a, b) t -> In (a', b) t -> a = a'.
Proof.
  induction t as [|[x y] t IH]; cbn; [contradiction|].
  intros Hn [H1|H1] [H2|H2]; inversion Hn as [|? ? Hni Hn']; subst.
  - congruence.
  - injection H1 as -> ->. exfalso. apply Hni.
    change b with (snd (a', b)). now apply in_map.
  - injection H2 as -> ->. exfalso. apply Hni.
    change b with (snd (a, b)). now apply in_map.
  - now apply IH.
Qed.

Lemma GPSTAGS_names_differ : NoDup (map snd GPSTAGS).
Proof.
  cbn. repeat (constructor; [cbn; intuition discriminate|]). constructor.
Qed.

(** No two tag ids share a key of [gps_info]. *)
Lemma GPSTAGS_get_injective (a b : Z) : GPSTAGS_get a = GPSTAGS_get b -> a = b.
Proof.
  unfold GPSTAGS_get.
  destruct (table_get GPSTAGS a) as [na|] eqn:Ea;
    destruct (table_get GPSTAGS b) as [nb|] eqn:Eb; intros H;
    try discriminate; [|congruence].
  injection H as <-.
  eapply In_snd_unique;
    [apply GPSTAGS_names_differ | apply table_get_In; eassumption
    | apply table_get_In; eassumption].
Qed.

Lemma fill_gps_other (ifd : list (Z * exif_value)) (k : gps_key) :
  forall gps_info,
    (forall id v, In (id, v) ifd -> GPSTAGS_get id <> k) ->
    dict_get (fill_gps ifd gps_info) k = dict_get gps_info k.
Proof.
  induction ifd as [|[id0 v0] ifd IH]; cbn [fill_gps]; intros acc H;
    [reflexivity|].
  rewrite IH by (intros id v Hin; apply (H id v); now right).
  rewrite dict_get_set.
  destruct (gps_key_eqb (GPSTAGS_get id0) k) eqn:E; [|reflexivity].
  apply gps_key_eqb_eq in E. exfalso.
  apply (H id0 v0); [now left | exact E].
Qed.

Lemma fill_gps_entry (ifd : list (Z * exif_value)) (id : Z) (v : exif_value) :
  forall gps_info,
    NoDup (map fst ifd) -> In (id, v) ifd ->
    dict_get (fill_gps ifd gps_info) (GPSTAGS_get id) = Some v.
Proof.
  induction ifd as [|[id0 v0] ifd IH]; cbn [fill_gps map fst];
    intros acc Hn Hin; [contradiction|].
  inversion Hn as [|? ? Hni Hn']; subst.
  destruct Hin as [Hin|Hin].
  - injection Hin as -> ->.
    rewrite fill_gps_other.
    + rewrite dict_get_set.
      now rewrite (proj2 (gps_key_eqb_eq _ _) eq_refl).
    + intros id' v' Hin' E. apply GPSTAGS_get_injective in E. subst id'.
      apply Hni. change id with (fst (id, v')). now apply in_map.
  - now apply IH.
Qed.

Lemma collect_gps_skips (exif_data : list (Z * exif_value)) :
  forall gps_info,
    ~ In GPSInfo_tag (map fst exif_data) ->
    collect_gps exif_data gps_info = Ok gps_info.
Proof.
  induction exif_data as [|[tag value] rest IH]; cbn [collect_gps map fst];
    intros acc H; [reflexivity|].
  destruct (tag =? GPSInfo_tag)%Z eqn:E.
  - apply Z.eqb_eq in E. exfalso. apply H. now left.
  - apply IH. intros Hin. apply H. now right.
Qed.

Lemma collect_gps_directory (exif_data : list (Z * exif_value))
    (ifd : list (Z * exif_value)) :
  forall gps_info,
    NoDup (map fst exif_data) -> In (GPSInfo_tag, VIfd ifd) exif_data ->
    collect_gps exif_data gps_info = Ok (fill_gps ifd gps_info).
Proof.
  induction exif_data as [|[tag value] rest IH]; cbn [collect_gps map fst];
    intros acc Hn Hin; [contradiction|].
  inversion Hn as [|? ? Hni Hn']; subst.
  destruct Hin as [Hin|Hin].
  - injection Hin as -> ->. rewrite Z.eqb_refl.
    now apply collect_gps_skips.
  - destruct (tag =? GPSInfo_tag)%Z eqn:E.
    + apply Z.eqb_eq in E. subst tag. exfalso. apply Hni.
      change GPSInfo_tag with (fst (GPSInfo_tag, VIfd ifd)). now apply in_map.
    + now apply IH.
Qed.

(** What [gps_info] holds under a tag's name is the value the GPS
    directory of the metadata holds under the tag's id, wherever the
    directory and the entry stand and whatever else they stand among.
    Keys are unique, the metadata and the directory being dicts. *)
Theorem gps_info_holds_directory_entries
    (exif_data ifd : list (Z * exif_value)) (id : Z) (name : string)
    (v : exif_value) :
  NoDup (map fst exif_data) -> In (GPSInfo_tag, VIfd ifd) exif_data ->
  NoDup (map fst ifd) -> In (id, v) ifd ->
  table_get GPSTAGS id = Some name ->
  exists gps_info,
    collect_gps exif_data [] = Ok gps_info /\ getitem gps_info name = Ok v.
Proof.
  intros Hn Hin Hn' Hin' Ht. exists (fill_gps ifd []).
  split; [now apply collect_gps_directory|].
  unfold getitem.
  pose proof (@fill_gps_entry ifd id v [] Hn' Hin') as E.
  unfold GPSTAGS_get in E. rewrite Ht in E. now rewrite E.
Qed.

Lemma gps_info_holds_directory_entries_witness :
  exists gps_info,
    collect_gps [(271%Z, VText "Canon"); (GPSInfo_tag, VIfd gps_without_refs)] []
    = Ok gps_info
    /\ getitem gps_info "GPSLongitude"
       = Ok (VTuple [Num (2 # 1); Num (17 # 1); Num (40 # 1)]).
Proof.
  apply (@gps_info_holds_directory_entries
           [(271%Z, VText "Canon"); (GPSInfo_tag, VIfd gps_without_refs)]
           gps_without_refs 4 "GPSLongitude"
           (VTuple [Num (2 # 1); Num (17 # 1); Num (40 # 1)])).
  - cbn. repeat (constructor; [cbn; intuition discriminate|]). constructor.
  - right. left. reflexivity.
  - cbn. repeat (constructor; [cbn; intuition discriminate|]). constructor.
  - right. left. reflexivity.
  - reflexivity.
Defined.

(** ** Image encoding: what is sent *)

(** What [encode_image] does after the thumbnail step: the image it
    serializes has the thumbnail's size, the format is the file's own
    unless the extension is unknown, the MIME type is the one of the
    extension. *)
Lemma encode_image_serializes
    (image_open : string -> result Image) (guess : string -> option string)
    (image_path : string) (img img1 : Image) :
  image_open image_path = Ok img ->
  thumbnail img (1920, 1920)%Z = Ok img1 ->
  exists out,
    (forall save b64 create,
        APIWorker.encode_image
          (mkWorld image_open guess save b64 create) image_path
        = (data <- save out
                     (match guess image_path with
                      | Some m =>
                          if str_empty m then "JPEG"
                          else match format img1 with
                               | Some f => if str_empty f then "JPEG" else f
                               | None => "JPEG"
                               end
                      | None => "JPEG"
                      end) ;;
           Ok (b64 data,
               match guess image_path with
               | Some m => if str_empty m then "image/jpeg" else m
               | None => "image/jpeg"
               end))%py)
    /\ width out = width img1 /\ height out = height img1.
Proof.
  intros Ho Et.
  set (mime := match guess image_path with
               | Some m => if str_empty m then "image/jpeg" else m
               | None => "image/jpeg"
               end).
  exists (if String.eqb mime "image/jpeg"
             && existsb (String.eqb (mode img1)) ["RGBA"; "P"]
          then convert img1 "RGB" else img1).
  split; [|apply convert_keeps_size].
  intros save b64 create.
  unfold APIWorker.encode_image, MAX_IMAGE_DIMENSION.
  cbn [Image_open guess_type Image_save b64encode].
  rewrite Ho; cbn [rbind]. rewrite Et; cbn [rbind]. subst mime.
  destruct (guess image_path) as [m|]; [destruct (str_empty m)|]; reflexivity.
Qed.

Lemma thumbnail_never_enlarges (img : Image) :
  (0 < width img)%Z -> (0 < height img)%Z ->
  exists img1,
    thumbnail img (1920, 1920)%Z = Ok img1
    /\ format img1 = format img
    /\ (width img1 <= width img)%Z /\ (height img1 <= height img)%Z
    /\ ((width img <= height img)%Z -> (width img1 <= height img1)%Z)
    /\ ((height img <= width img)%Z -> (height img1 <= width img1)%Z).
Proof.
  intros Hw Hh.
  destruct (Z.le_gt_cases (Z.max (width img) (height img)) 1920) as [Hs|Hb].
  { exists img. rewrite thumbnail_fits by lia. repeat split; auto; lia. }
  destruct (thumbnail_shrinks img Hw Hh Hb) as (x & y & E & Hx & Hy & Hr).
  exists (mkImage x y (mode img) (format img) (_getexif img)).
  split; [exact E|]. split; [reflexivity|]. cbn [width height].
  assert (HW : (0 < inject_Z (width img))%Q)
    by (change 0%Q with (inject_Z 0); rewrite <- Zlt_Qlt; lia).
  assert (HH : (0 < inject_Z (height img))%Q)
    by (change 0%Q with (inject_Z 0); rewrite <- Zlt_Qlt; lia).
  assert (below : forall a b c : Z,
             (0 < a)%Z -> (0 < b)%Z -> (a <= b)%Z -> (1920 < b)%Z ->
             (Qabs (inject_Z c - 1920 * (inject_Z a / inject_Z b)) < 1)%Q ->
             (c <= a)%Z /\ (a = b -> c = 1920%Z)).
  { intros a b c Ha Hb' Hab Hbig Hc.
    assert (A : (0 < inject_Z a)%Q)
      by (change 0%Q with (inject_Z 0); rewrite <- Zlt_Qlt; lia).
    assert (B : (0 < inject_Z b)%Q)
      by (change 0%Q with (inject_Z 0); rewrite <- Zlt_Qlt; lia).
    assert (B' : (1920 < inject_Z b)%Q)
      by (change 1920%Q with (inject_Z 1920); rewrite <- Zlt_Qlt; lia).
    apply Qabs_Qlt_condition in Hc. destruct Hc as [Hc1 Hc2].
    assert (R : (1920 * (inject_Z a / inject_Z b) < inject_Z a)%Q).
    { assert (1920 * (inject_Z a / inject_Z b)
              == (1920 * inject_Z a) / inject_Z b)%Q as ->
        by (field; lra).
      apply Qlt_shift_div_r; [exact B|]. nra. }
    split.
    - apply Z.lt_succ_r. unfold Z.succ. rewrite Zlt_Qlt, inject_Z_plus.
      change (inject_Z 1) with 1%Q. lra.
    - intros ->.
      assert (E1 : (1920 * (inject_Z b / inject_Z b) == 1920)%Q)
        by (field; lra).
      rewrite E1 in Hc1, Hc2.
      assert (1919 < c)%Z.
      { rewrite Zlt_Qlt. change (inject_Z 1919) with 1919%Q. lra. }
      assert (c < 1921)%Z.
      { rewrite Zlt_Qlt. change (inject_Z 1921) with 1921%Q. lra. }
      lia. }
  destruct Hr as [(Hle & -> & Hc) | (Hlt & -> & Hc)].
  - destruct (below (width img) (height img) x Hw Hh Hle ltac:(lia) Hc)
      as [Hxw Heq].
    repeat split; lia.
  - destruct (below (height img) (width img) y Hh Hw ltac:(lia) ltac:(lia) Hc)
      as [Hyh _].
    repeat split; lia.
Qed.

(** The image [encode_image] serializes is never larger than the file's
    in either dimension, and a landscape image stays landscape, a
    portrait one portrait, a square one square. *)
Theorem encode_image_never_enlarges
    (image_open : string -> result Image) (guess : string -> option string)
    (image_path : string) (img : Image) :
  image_open image_path = Ok img ->
  (0 < width img)%Z -> (0 < height img)%Z ->
  exists out fmt mime_type,
    (forall save b64 create,
        APIWorker.encode_image
          (mkWorld image_open guess save b64 create) image_path
        = (data <- save out fmt ;; Ok (b64 data, mime_type))%py)
    /\ (width out <= width img)%Z /\ (height out <= height img)%Z
    /\ ((width img <= height img)%Z -> (width out <= height out)%Z)
    /\ ((height img <= width img)%Z -> (height out <= width out)%Z).
Proof.
  intros Ho Hw Hh.
  destruct (thumbnail_never_enlarges img Hw Hh)
    as (img1 & Et & _ & Hx & Hy & Hp & Hl).
  destruct (encode_image_serializes image_open guess image_path Ho Et)
    as (out & E & Ex & Ey).
  eexists out, _, _. split; [exact E|]. rewrite Ex, Ey. auto.
Qed.

Lemma encode_image_never_enlarges_witness :
  exists out fmt mime_type,
    (forall save b64 create,
        APIWorker.encode_image
          (mkWorld (fun _ => Ok photo) (fun _ => Some "image/jpeg")
             save b64 create)
          "photo.jpg"
        = (data <- save out fmt ;; Ok (b64 data, mime_type))%py)
    /\ (width out <= 4000)%Z /\ (height out <= 3000)%Z
    /\ ((4000 <= 3000)%Z -> (width out <= height out)%Z)
    /\ ((3000 <= 4000)%Z -> (height out <= width out)%Z).
Proof.
  exact (@encode_image_never_enlarges
           (fun _ => Ok photo) (fun _ => Some "image/jpeg") "photo.jpg" photo
           eq_refl eq_refl eq_refl).
Defined.

(** The MIME type follows the file's name and the format written follows
    the file's content, each whatever the other is: a JPEG file named
    as a PNG one is sent as JPEG bytes labelled [image/png]. *)
Theorem label_by_name_format_by_content
    (image_open : string -> result Image) (guess : string -> option string)
    (image_path mime_type fmt : string) (img : Image) :
  image_open image_path = Ok img ->
  (0 < width img)%Z -> (0 < height img)%Z ->
  guess image_path = Some mime_type -> mime_type <> "" ->
  format img = Some fmt -> fmt <> "" ->
  exists out,
    forall save b64 create,
      APIWorker.encode_image
        (mkWorld image_open guess save b64 create) image_path
      = (data <- save out fmt ;; Ok (b64 data, mime_type))%py.
Proof.
  intros Ho Hw Hh Hg Hm Hf Hfe.
  destruct (thumbnail_never_enlarges img Hw Hh) as (img1 & Et & Ef & _).
  destruct (encode_image_serializes image_open guess image_path Ho Et)
    as (out & E & _).
  exists out. intros save b64 create. rewrite E, Hg, Ef, Hf.
  destruct mime_type; [now elim Hm|]. destruct fmt; [now elim Hfe|].
  reflexivity.
Qed.

Lemma label_by_name_format_by_content_witness :
  exists out,
    forall save b64 create,
      APIWorker.encode_image
        (mkWorld (fun _ => Ok photo) (fun _ => Some "image/png")
           save b64 create)
        "photo.png"
      = (data <- save out "JPEG" ;; Ok (b64 data, "image/png"))%py.
Proof.
  apply (@label_by_name_format_by_content
           (fun _ => Ok photo) (fun _ => Some "image/png")
           "photo.png" "image/png" "JPEG" photo);
    try reflexivity; discriminate.
Defined.
